(** * ML price prediction service (services/ml-service/app.py)

    A shallow embedding of the Flask service that predicts flight prices:
    the airport distance table, feature extraction, the train-or-load
    routine with its global model reference, and the HTTP handlers
    [predict], [predict_batch], [model_info] and [retrain].

    Conventions of the embedding:
    - JSON objects are Python dicts: finite maps from strings to JSON
      values ([gmap string json]).  The handlers are given on object
      bodies first, as the interface has them, then on any JSON value
      and on any request body.
    - Python floats are idealised as rationals ([Q]); prices are compared
      with [==] (Qeq).  The regression model never produces NaN on the
      finite training labels, so raw predictions are rationals.  Rounding
      to two decimals is exact on rationals, ties to even; on binary
      floats a tie can fall the other way, so the theorems on returned
      prices speak of bounds, of order, and of the nearest hundredth, not
      of the side a tie falls on.
    - Strings are the UTF-8 bytes of the Python [str]. [strptime] knows
      the decimal digits of every script; [str.upper] is modelled as far
      as a comparison with an ASCII airport code can tell.
    - Globals ([model]), the model file on disk and the log are fields of
      an explicit [world]; handlers are state-passing functions that may
      raise. *)

From Stdlib Require Import ZArith QArith Qround Qminmax String Ascii List Lia Lqa.
From stdpp Require Import base option list gmap strings fin_maps.

Local Open Scope string_scope.
Local Open Scope Z_scope.
Local Set Warnings "-register-all".

(** ** JSON values, as [request.get_json()] hands them to the handlers *)

Inductive json :=
| JNull
| JBool (b : bool)
| JNum (q : Q)
| JStr (s : string)
| JArr (l : list json)
| JObj (m : gmap string json).

(** [dict.get(key, default)] *)
Definition dict_get (data : gmap string json) (key : string) (default : json) : json :=
  match data !! key with
  | Some v => v
  | None => default
  end.

(** [dict.get(key)]: the default is [None]. *)
Definition dict_get_none (data : gmap string json) (key : string) : json :=
  dict_get data key JNull.

(** JSON arrays and objects become Python lists and dicts, which are not
    hashable; every other JSON value is. *)
Definition hashable (v : json) : bool :=
  match v with
  | JArr _ | JObj _ => false
  | _ => true
  end.

(** [v in l] for a list [l] of string literals: only a string compares equal
    to a string. *)
Definition py_in (v : json) (l : list string) : bool :=
  match v with
  | JStr s => bool_decide (s ∈ l)
  | _ => false
  end.

(** ** Exceptions and results *)

Inductive exn :=
| TypeError
| AttributeError
| ValueError
| NotFittedError
| FitError
| OSError
| BadRequest
| UnsupportedMediaType.

Inductive result (A : Type) :=
| Ok (a : A)
| Raise (e : exn).
Arguments Ok {A} a.
Arguments Raise {A} e.

(** ** Airport distance mapping (approximate distances in km) *)

Definition AIRPORT_DISTANCES_items : list ((string * string) * Z) :=
  [ (("IST", "SAW"), 50);
    (("IST", "ESB"), 350);
    (("IST", "ADB"), 330);
    (("IST", "AYT"), 480);
    (("IST", "BJV"), 520);
    (("IST", "DLM"), 600);
    (("IST", "TZX"), 880);
    (("IST", "GZT"), 850);
    (("IST", "VAN"), 1200);
    (("IST", "JFK"), 8000);
    (("IST", "LAX"), 11000);
    (("IST", "LHR"), 2500);
    (("IST", "CDG"), 2200);
    (("IST", "FRA"), 1800);
    (("IST", "AMS"), 2200);
    (("IST", "DXB"), 3000);
    (("ADB", "SAW"), 290);
    (("ADB", "ESB"), 450);
    (("ESB", "AYT"), 350);
    (("AYT", "SAW"), 400) ].

Definition AIRPORT_DISTANCES : gmap (string * string) Z :=
  list_to_map AIRPORT_DISTANCES_items.

(** A tuple key [(a, b)] of arbitrary values looked up in the table: hashing
    a list or a dict raises [TypeError]; a key with a non-string component
    is never equal to a table key. *)
Definition table_lookup (a b : json) : result (option Z) :=
  if hashable a && hashable b then
    match a, b with
    | JStr x, JStr y => Ok (AIRPORT_DISTANCES !! (x, y))
    | _, _ => Ok None
    end
  else Raise TypeError.

(** [get_distance(from_airport, to_airport)] *)
Definition get_distance (from_airport to_airport : json) : result Z :=
  match table_lookup from_airport to_airport with
  | Raise e => Raise e
  | Ok (Some d) => Ok d
  | Ok None =>
      match table_lookup to_airport from_airport with
      | Raise e => Raise e
      | Ok (Some d) => Ok d
      | Ok None => Ok 500
      end
  end.

(** ** Dates: the parts of [datetime] the service uses

    The arithmetic follows CPython's [datetime] module (proleptic Gregorian
    ordinals, Monday = 0). *)

Record datetime := mk_datetime {
  dt_year : Z;
  dt_month : Z;
  dt_day : Z;
  dt_hour : Z;
  dt_minute : Z;
  dt_second : Z;
  dt_microsecond : Z
}.

Definition is_leap (year : Z) : bool :=
  (year mod 4 =? 0) && (negb (year mod 100 =? 0) || (year mod 400 =? 0)).

Definition days_before_year (year : Z) : Z :=
  let y := year - 1 in
  y * 365 + y / 4 - y / 100 + y / 400.

Definition days_in_month (year month : Z) : Z :=
  if (month =? 2) && is_leap year then 29
  else nth (Z.to_nat month) [0; 31; 28; 31; 30; 31; 30; 31; 31; 30; 31; 30; 31] 0.

Definition days_before_month (year month : Z) : Z :=
  nth (Z.to_nat month) [0; 0; 31; 59; 90; 120; 151; 181; 212; 243; 273; 304; 334] 0
  + (if (2 <? month) && is_leap year then 1 else 0).

Definition ymd2ord (year month day : Z) : Z :=
  days_before_year year + days_before_month year month + day.

Definition toordinal (d : datetime) : Z :=
  ymd2ord (dt_year d) (dt_month d) (dt_day d).

(** [d.weekday()]: Monday is 0, Sunday is 6. *)
Definition weekday (d : datetime) : Z := (toordinal d + 6) mod 7.

Definition microseconds_per_day : Z := 86400 * 1000000.

(** Microseconds since the start of day 0 of the proleptic calendar. *)
Definition total_microseconds (d : datetime) : Z :=
  toordinal d * microseconds_per_day
  + (dt_second d + dt_minute d * 60 + dt_hour d * 3600) * 1000000
  + dt_microsecond d.

(** [(a - b).days]: a [timedelta] is normalised so that its seconds and
    microseconds are non-negative, hence [days] is the floor of the
    difference. *)
Definition timedelta_days (a b : datetime) : Z :=
  (total_microseconds a - total_microseconds b) / microseconds_per_day.

(** *** [datetime.strptime(s, '%Y-%m-%d')]

    The format compiles to the regular expression
    [(\d\d\d\d)-(1[0-2]|0[1-9]|[1-9])-(3[0-1]|[1-2]\d|0[1-9]|[1-9]| [1-9])];
    text left over after the match and dates that do not exist both raise
    [ValueError].  In a [str] pattern [\d] matches every Unicode decimal
    digit (category Nd), and [int] converts such digits; the bracketed
    classes match ASCII digits only.  A string is held as the UTF-8 bytes
    of the Python [str]. *)

Definition byte_val (c : ascii) : Z := Z.of_nat (nat_of_ascii c).

(** The payload of a UTF-8 continuation byte. *)
Definition continuation (c : ascii) : option Z :=
  let b := byte_val c in
  if (128 <=? b) && (b <? 192) then Some (b - 128) else None.

(** The first code point of a string, and the rest of the string. *)
Definition utf8_decode (s : string) : option (Z * string) :=
  match s with
  | EmptyString => None
  | String c0 r0 =>
      let b0 := byte_val c0 in
      if b0 <? 128 then Some (b0, r0)
      else if (192 <=? b0) && (b0 <? 224) then
        match r0 with
        | String c1 r1 =>
            match continuation c1 with
            | Some x1 => Some ((b0 - 192) * 64 + x1, r1)
            | None => None
            end
        | EmptyString => None
        end
      else if (224 <=? b0) && (b0 <? 240) then
        match r0 with
        | String c1 (String c2 r2) =>
            match continuation c1, continuation c2 with
            | Some x1, Some x2 => Some (((b0 - 224) * 64 + x1) * 64 + x2, r2)
            | _, _ => None
            end
        | _ => None
        end
      else if (240 <=? b0) && (b0 <? 248) then
        match r0 with
        | String c1 (String c2 (String c3 r3)) =>
            match continuation c1, continuation c2, continuation c3 with
            | Some x1, Some x2, Some x3 =>
                Some ((((b0 - 240) * 64 + x1) * 64 + x2) * 64 + x3, r3)
            | _, _, _ => None
            end
        | _ => None
        end
      else None
  end.

(** The code points of the digit zero of every script with decimal digits
    (Unicode 14.0, the version of CPython 3.11); the digits one to nine
    of a script follow its zero. *)
Definition Nd_zeros : list Z :=
  [48; 1632; 1776; 1984; 2406; 2534; 2662; 2790;
   2918; 3046; 3174; 3302; 3430; 3558; 3664; 3792;
   3872; 4160; 4240; 6112; 6160; 6470; 6608; 6784;
   6800; 6992; 7088; 7232; 7248; 42528; 43216; 43264;
   43472; 43504; 43600; 44016; 65296; 66720; 68912; 69734;
   69872; 69942; 70096; 70384; 70736; 70864; 71248; 71360;
   71472; 71904; 72016; 72784; 73040; 73120; 92768; 92864;
   93008; 120782; 120792; 120802; 120812; 120822; 123200; 123632;
   125264; 130032].

(** [\d]: a leading decimal digit of any script, with its value. *)
Definition decimal_digit (s : string) : option (Z * string) :=
  match utf8_decode s with
  | Some (cp, rest) =>
      match find (λ z, (z <=? cp) && (cp <=? z + 9)) Nd_zeros with
      | Some z => Some (cp - z, rest)
      | None => None
      end
  | None => None
  end.

(** An ASCII digit, as the classes [[0-9]] of the pattern want it. *)
Definition digit_val (c : ascii) : option Z :=
  let n := Z.of_nat (nat_of_ascii c) in
  if (48 <=? n) && (n <=? 57) then Some (n - 48) else None.

(** [\d\d\d\d] *)
Definition parse_year (s : string) : option (Z * string) :=
  match decimal_digit s with
  | Some (a, s1) =>
      match decimal_digit s1 with
      | Some (b, s2) =>
          match decimal_digit s2 with
          | Some (c, s3) =>
              match decimal_digit s3 with
              | Some (d, s4) => Some (a * 1000 + b * 100 + c * 10 + d, s4)
              | None => None
              end
          | None => None
          end
      | None => None
      end
  | None => None
  end.

Definition parse_month (s : string) : option (Z * string) :=
  match s with
  | String c1 (String c2 (String c3 rest)) =>
      match digit_val c1, digit_val c2 with
      | Some 1, Some d2 =>
          if (d2 <=? 2) && Ascii.eqb c3 "-" then Some (10 + d2, rest)
          else None
      | Some 0, Some d2 =>
          if (1 <=? d2) && Ascii.eqb c3 "-" then Some (d2, rest)
          else None
      | Some d1, _ =>
          if (1 <=? d1) && Ascii.eqb c2 "-" then Some (d1, String c3 rest)
          else None
      | None, _ => None
      end
  | String c1 (String c2 rest) =>
      match digit_val c1 with
      | Some d1 =>
          if (1 <=? d1) && Ascii.eqb c2 "-" then Some (d1, rest) else None
      | None => None
      end
  | _ => None
  end.

(** A second character of the day taken from an ASCII class [[lo-hi]]. *)
Definition ascii_second (rest1 : string) (lo hi : Z) : option (Z * string) :=
  match rest1 with
  | String c2 rest2 =>
      match digit_val c2 with
      | Some d2 => if (lo <=? d2) && (d2 <=? hi) then Some (d2, rest2) else None
      | None => None
      end
  | EmptyString => None
  end.

Definition parse_day (s : string) : option (Z * string) :=
  match s with
  | EmptyString => None
  | String c1 rest1 =>
      let one_digit :=
        match digit_val c1 with
        | Some d1 => if 1 <=? d1 then Some (d1, rest1) else None
        | None => None
        end in
      match digit_val c1 with
      | Some 3 =>
          match ascii_second rest1 0 1 with
          | Some (d2, rest2) => Some (30 + d2, rest2)
          | None => one_digit
          end
      | Some 1 =>
          match decimal_digit rest1 with
          | Some (d2, rest2) => Some (10 + d2, rest2)
          | None => one_digit
          end
      | Some 2 =>
          match decimal_digit rest1 with
          | Some (d2, rest2) => Some (20 + d2, rest2)
          | None => one_digit
          end
      | Some 0 =>
          match ascii_second rest1 1 9 with
          | Some (d2, rest2) => Some (d2, rest2)
          | None => None
          end
      | Some _ => one_digit
      | None =>
          if Ascii.eqb c1 " " then ascii_second rest1 1 9 else None
      end
  end.

Definition strptime_ymd (s : string) : option datetime :=
  match parse_year s with
  | Some (y, String dash rest) =>
      if Ascii.eqb dash "-" then
        match parse_month rest with
        | Some (m, rest') =>
            match parse_day rest' with
            | Some (dd, EmptyString) =>
                if (1 <=? y) && (dd <=? days_in_month y m)
                then Some (mk_datetime y m dd 0 0 0 0)
                else None
            | _ => None
            end
        | None => None
        end
      else None
  | _ => None
  end.

(** *** [d.strftime('%Y-%m-%d')], zero padded *)

Definition digit_char (d : Z) : ascii := ascii_of_nat (Z.to_nat (48 + d mod 10)).

Definition pad2 (n : Z) : string :=
  String (digit_char (n / 10)) (String (digit_char n) EmptyString).

Definition pad4 (n : Z) : string :=
  String (digit_char (n / 1000)) (String (digit_char (n / 100)) (pad2 n)).

Definition strftime_ymd (d : datetime) : string :=
  pad4 (dt_year d) ++ "-" ++ pad2 (dt_month d) ++ "-" ++ pad2 (dt_day d).

(** ** Feature extraction *)

(** The dict built by [extract_features]; [duration_minutes] is whatever the
    request carried (it is passed through unchecked). *)
Record features := mk_features {
  duration_minutes : json;
  month : Z;
  day_of_week : Z;
  day_of_month : Z;
  days_until_departure : Z;
  is_weekend : Z;
  is_peak_season : Z;
  distance : Z;
  is_international : Z
}.

(** The keys of that dict, in insertion order; [pd.DataFrame([features])]
    takes its columns from them. *)
Definition features_items (f : features) : list (string * json) :=
  [ ("duration_minutes", duration_minutes f);
    ("month", JNum (inject_Z (month f)));
    ("day_of_week", JNum (inject_Z (day_of_week f)));
    ("day_of_month", JNum (inject_Z (day_of_month f)));
    ("days_until_departure", JNum (inject_Z (days_until_departure f)));
    ("is_weekend", JNum (inject_Z (is_weekend f)));
    ("is_peak_season", JNum (inject_Z (is_peak_season f)));
    ("distance", JNum (inject_Z (distance f)));
    ("is_international", JNum (inject_Z (is_international f))) ].

Definition features_columns (f : features) : list string := (features_items f).*1.

(** The three places where [extract_features] reads the clock, in program
    order: the default of [departureDate], the fallback of the [except]
    branch, and the reference instant of [days_until]. *)
Record clock := mk_clock {
  now_default : datetime;
  now_fallback : datetime;
  now_reference : datetime
}.

(** [try: datetime.strptime(departure_date, '%Y-%m-%d') except: datetime.now()];
    a value that is not a string raises [TypeError], which the bare
    [except] absorbs as well. *)
Definition parse_departure_date (clk : clock) (departure_date : json) : datetime :=
  match departure_date with
  | JStr s =>
      match strptime_ymd s with
      | Some d => d
      | None => now_fallback clk
      end
  | _ => now_fallback clk
  end.

Definition extract_features_domestic_airports : list string :=
  ["IST"; "SAW"; "ESB"; "ADB"; "AYT"; "BJV"; "DLM"; "TZX"; "GZT"; "VAN"].

Definition extract_features (clk : clock) (data : gmap string json) : result features :=
  let from_airport := dict_get data "fromAirport" (JStr "IST") in
  let to_airport := dict_get data "toAirport" (JStr "SAW") in
  let departure_date :=
    dict_get data "departureDate" (JStr (strftime_ymd (now_default clk))) in
  let duration_minutes := dict_get data "durationMinutes" (JNum 90) in
  let date_obj := parse_departure_date clk departure_date in
  let month := dt_month date_obj in
  let day_of_week := weekday date_obj in
  let day_of_month := dt_day date_obj in
  let days_until := timedelta_days date_obj (now_reference clk) in
  let days_until := if days_until <? 0 then 0 else days_until in
  let is_weekend := if 5 <=? day_of_week then 1 else 0 in
  let is_peak_season := if bool_decide (month ∈ [6; 7; 8; 12]) then 1 else 0 in
  match get_distance from_airport to_airport with
  | Raise e => Raise e
  | Ok distance =>
      let is_international :=
        if py_in from_airport extract_features_domestic_airports
           && py_in to_airport extract_features_domestic_airports
        then 0 else 1 in
      Ok (mk_features duration_minutes month day_of_week day_of_month
            days_until is_weekend is_peak_season distance is_international)
  end.

(** ** Prices *)

(** [round(x, 2)]: to the nearest hundredth, ties to the even one. *)
Definition round_half_even (x : Q) : Z :=
  let n := Qfloor x in
  match (x - inject_Z n ?= 1 # 2)%Q with
  | Lt => n
  | Gt => n + 1
  | Eq => if Z.even n then n else n + 1
  end.

Definition round2 (x : Q) : Q := (inject_Z (round_half_even (x * 100)) / 100)%Q.

(** [v * f] for a float [f]: numbers and booleans multiply, anything else
    raises [TypeError]. *)
Definition py_mul_float (v : json) (f : Q) : result Q :=
  match v with
  | JNum q => Ok (q * f)%Q
  | JBool b => Ok ((if b then 1 else 0) * f)%Q
  | _ => Raise TypeError
  end.

Fixpoint is_prefix (p s : string) : bool :=
  match p, s with
  | EmptyString, _ => true
  | String a p', String b s' => Ascii.eqb a b && is_prefix p' s'
  | String _ _, EmptyString => false
  end.

(** [p in s] for two strings. *)
Fixpoint is_substring (p s : string) : bool :=
  is_prefix p s
  || match s with
     | EmptyString => false
     | String _ s' => is_substring p s'
     end.

(** [s.upper()], as far as a comparison with ASCII text can tell.  ASCII
    letters are mapped to their capitals; the ten other characters whose
    upper case is made of ASCII letters only are mapped to it; every
    other character keeps its bytes (its upper case has a character
    outside ASCII as well, so it equals no airport code either way). *)
Definition upper_ascii (c : ascii) : ascii :=
  let n := nat_of_ascii c in
  if (97 <=? n)%nat && (n <=? 122)%nat then ascii_of_nat (n - 32) else c.

Definition upper_to_ascii : list (string * string) :=
  [("ß", "SS"); ("ı", "I"); ("ſ", "S"); ("ﬀ", "FF"); ("ﬁ", "FI"); ("ﬂ", "FL");
   ("ﬃ", "FFI"); ("ﬄ", "FFL"); ("ﬅ", "ST"); ("ﬆ", "ST")].

(** [skip] counts the bytes still to pass over of a character already
    mapped. *)
Fixpoint upper_from (skip : nat) (s : string) : string :=
  match s with
  | EmptyString => EmptyString
  | String c s' =>
      match skip with
      | S k => upper_from k s'
      | O =>
          match find (λ m, is_prefix m.1 s) upper_to_ascii with
          | Some (lower, capitals) =>
              capitals +:+ upper_from (String.length lower - 1) s'
          | None => String (upper_ascii c) (upper_from 0 s')
          end
      end
  end.

Definition upper (s : string) : string := upper_from 0 s.

(** [v.upper()]: only strings have the method. *)
Definition py_upper (v : json) : result string :=
  match v with
  | JStr s => Ok (upper s)
  | _ => Raise AttributeError
  end.

Definition predict_domestic_airports : list string :=
  ["IST"; "SAW"; "ESB"; "ADB"; "AYT"; "BJV"; "DLM"; "TZX"; "GZT"; "VAN"].

(** The domestic test of [predict] (lines 233-236). *)
Definition is_domestic (data : gmap string json) : result bool :=
  match py_upper (dict_get data "fromAirport" (JStr "")) with
  | Raise e => Raise e
  | Ok from_airport =>
      match py_upper (dict_get data "toAirport" (JStr "")) with
      | Raise e => Raise e
      | Ok to_airport =>
          Ok (bool_decide (from_airport ∈ predict_domestic_airports)
              && bool_decide (to_airport ∈ predict_domestic_airports))
      end
  end.

(** The adjusted price of the domestic override (lines 241-252). *)
Definition adjusted_price (f : features) : result Q :=
  match py_mul_float (duration_minutes f) (0.1)%Q with
  | Raise e => Raise e
  | Ok duration_part =>
      let adjusted_base := 40%Q in
      let adjusted_price :=
        (adjusted_base + inject_Z (distance f) * 0.005 + duration_part)%Q in
      let adjusted_price :=
        if is_peak_season f =? 0 then adjusted_price else (adjusted_price + 20)%Q in
      let adjusted_price :=
        if is_weekend f =? 0 then adjusted_price else (adjusted_price + 10)%Q in
      let adjusted_price :=
        if days_until_departure f <? 7
        then (adjusted_price + inject_Z ((7 - days_until_departure f) * 2))%Q
        else adjusted_price in
      Ok adjusted_price
  end.

(** Lines 239-256: the value of [predicted_price] after the override. *)
Definition domestic_override (domestic : bool) (f : features) (predicted_price : Q)
  : result Q :=
  if domestic && negb (Qle_bool predicted_price 80) then
    match adjusted_price f with
    | Raise e => Raise e
    | Ok adjusted =>
        let predicted_price := Qmin predicted_price (Qmax adjusted 35) in
        Ok (Qmin predicted_price 85)
    end
  else Ok predicted_price.

(** Line 259 (and line 299 of the batch path): floor at 30, two decimals. *)
Definition floor_and_round (predicted_price : Q) : Q :=
  round2 (Qmax predicted_price 30).

(** ** Synthetic training data (lines 136-180)

    The draws of the seeded generator are taken as given; the derived
    columns and the price labels are computed from them row by row, as the
    vectorised expressions do. *)

Definition n_samples : Z := 10000.

(** One row of the draws; the generator yields [n_samples] of them. *)
Record sample := mk_sample {
  s_duration : Z;        (* randint(30, 720) *)
  s_month : Z;           (* randint(1, 13) *)
  s_day_of_week : Z;     (* randint(0, 7) *)
  s_day_of_month : Z;    (* randint(1, 29) *)
  s_days_until : Z;      (* randint(0, 90) *)
  s_distance : Z;        (* randint(100, 12000) *)
  s_normal : Q           (* the standard normal draw behind the noise *)
}.

Definition sample_is_weekend (s : sample) : Z :=
  if 5 <=? s_day_of_week s then 1 else 0.

Definition sample_is_peak_season (s : sample) : Z :=
  if bool_decide (s_month s ∈ [6; 7; 8; 12]) then 1 else 0.

Definition sample_is_international (s : sample) : Z :=
  if 1500 <? s_distance s then 1 else 0.

Definition sample_price (s : sample) : Q :=
  let intl := sample_is_international s =? 1 in
  let domestic_base := 40%Q in
  let international_base := 150%Q in
  let base_price := if intl then international_base else domestic_base in
  let price :=
    (base_price
     + inject_Z (s_duration s) * 0.15
     + inject_Z (sample_is_peak_season s) * (if intl then 80 else 25)
     + inject_Z (sample_is_weekend s) * (if intl then 30 else 15)
     + inject_Z (Z.max 0 (30 - s_days_until s)) * 2
     + inject_Z (s_distance s) * (if intl then 0.03 else 0.005)
     + (if intl then 40 else 15) * s_normal s)%Q in
  Qmax price (if intl then 100 else 35).

(** The columns of the training frame [X], in the order of the dict literal. *)
Definition training_frame (draws : list sample) : list (string * list Z) :=
  [ ("duration_minutes", s_duration <$> draws);
    ("month", s_month <$> draws);
    ("day_of_week", s_day_of_week <$> draws);
    ("day_of_month", s_day_of_month <$> draws);
    ("days_until_departure", s_days_until <$> draws);
    ("is_weekend", sample_is_weekend <$> draws);
    ("is_peak_season", sample_is_peak_season <$> draws);
    ("distance", s_distance <$> draws);
    ("is_international", sample_is_international <$> draws) ].

Definition training_columns (draws : list sample) : list string :=
  (training_frame draws).*1.

Definition training_labels (draws : list sample) : list Q := sample_price <$> draws.

(** ** The model, the model file and the log *)

(** What a fitted forest offers: [predict] on a one-row frame (it may raise,
    e.g. on a non-numeric cell) and [feature_importances_]. *)
Record predictor := mk_predictor {
  predict_row : features → result Q;
  feature_importances_ : list Q
}.

(** A [RandomForestRegressor] object: its parameters and, once [fit] has
    succeeded, the fitted forest. *)
Record estimator := mk_estimator {
  n_estimators : Z;
  max_depth : Z;
  fitted : option predictor
}.

(** [model.predict(X)[0]] *)
Definition estimator_predict (m : estimator) (f : features) : result Q :=
  match fitted m with
  | Some p => predict_row p f
  | None => Raise NotFittedError
  end.

(** Content of [model/flight_price_model.joblib]. *)
Inductive artifact :=
| Pickled (m : estimator)
| Corrupt.

Inductive log_record :=
| info_model_loaded          (* "Model loaded from file" *)
| warning_load_failed        (* "Failed to load model: ..." *)
| info_training              (* "Training new model with synthetic data..." *)
| info_trained_saved         (* "Model trained and saved" *)
| info_prediction (from_airport to_airport : json) (price : Q)
| error_prediction (e : exn)
| error_batch (e : exn)
| error_retrain (e : exn).

Record world := mk_world {
  model : option estimator;      (* the global [model] *)
  model_file : option artifact;  (* the file at [model_path], if it exists *)
  log : list log_record
}.

(** What the surroundings decide: the draws of [np.random] after
    [seed(42)], whether [fit] succeeds on given data, and whether the model
    file can be written. *)
Record env := mk_env {
  seeded_draws : list sample;
  forest_fit : list (string * list Z) → list Q → result predictor;
  dump_ok : bool
}.

(** State passing with exceptions; the state survives a raise. *)
Definition M (A : Type) : Type := world → result A * world.

#[local] Instance M_ret : MRet M := λ A a w, (Ok a, w).
#[local] Instance M_bind : MBind M := λ A B f m w,
  match m w with
  | (Ok a, w') => f a w'
  | (Raise e, w') => (Raise e, w')
  end.

Definition raise {A} (e : exn) : M A := λ w, (Raise e, w).
Definition lift {A} (r : result A) : M A := λ w, (r, w).
Definition get_model : M (option estimator) := λ w, (Ok (model w), w).
Definition set_model (m : estimator) : M unit :=
  λ w, (Ok tt, mk_world (Some m) (model_file w) (log w)).
Definition write_model_file (a : artifact) : M unit :=
  λ w, (Ok tt, mk_world (model w) (Some a) (log w)).
Definition logger (r : log_record) : M unit :=
  λ w, (Ok tt, mk_world (model w) (model_file w) (log w ++ [r])).
Definition try_except {A} (body : M A) (handler : exn → M A) : M A :=
  λ w, match body w with
       | (Ok a, w') => (Ok a, w')
       | (Raise e, w') => handler e w'
       end.

(** Lines 133-194 of [train_model]: generate, fit, save. *)
Definition train_new_model (E : env) : M unit :=
  logger info_training;;
  let draws := seeded_draws E in
  let X := training_frame draws in
  let y := training_labels draws in
  set_model (mk_estimator 100 10 None);;
  p ← lift (forest_fit E X y);
  let m := mk_estimator 100 10 (Some p) in
  set_model m;;
  (if dump_ok E then write_model_file (Pickled m) else raise OSError);;
  logger info_trained_saved.

(** [train_model()]: "Train or load the price prediction model". *)
Definition train_model (E : env) : M unit :=
  λ w,
    match model_file w with
    | Some (Pickled m) => (set_model m;; logger info_model_loaded) w
    | Some Corrupt => (logger warning_load_failed;; train_new_model E) w
    | None => train_new_model E w
    end.

(** Module initialisation: [with app.app_context(): train_model()]. *)
Definition startup (E : env) : M unit := train_model E.

(** ** HTTP handlers *)

Inductive error_text :=
| message (s : string)
| str_of (e : exn).

(** One element of the [predictions] list of the batch response. *)
Record prediction := mk_prediction {
  p_fromAirport : json;
  p_toAirport : json;
  p_departureDate : json;
  p_predictedPrice : Q
}.

(** The JSON bodies the handlers return, with their status codes. *)
Inductive response :=
| predict_success (predictedPrice : Q) (currency : string)
    (resp_features : features) (confidence : Q)
| batch_success (predictions : list prediction)
| info_success (model_type : string) (n : Z) (depth : Z)
    (feature_importance : list (string * Q))
| retrain_success (msg : string)
| failure (status : Z) (error : error_text).

(** [not data] for a dict: it is empty. *)
Definition falsy_dict (data : gmap string json) : bool :=
  bool_decide (size data = 0%nat).

(** [if model is None: train_model()] followed by [model.predict(X)[0]] *)
Definition ensure_model_and_predict (E : env) (f : features) : M Q :=
  m ← get_model;
  (if m is None then train_model E else mret tt);;
  m ← get_model;
  match m with
  | Some m => lift (estimator_predict m f)
  | None => raise AttributeError
  end.

(** The body of the [try] block of [predict] (lines 220-269). *)
Definition predict_body (E : env) (clk : clock) (data : gmap string json) : M response :=
  features ← lift (extract_features clk data);
  predicted_price ← ensure_model_and_predict E features;
  domestic ← lift (is_domestic data);
  predicted_price ← lift (domestic_override domestic features predicted_price);
  let predicted_price := floor_and_round predicted_price in
  logger (info_prediction (dict_get_none data "fromAirport")
            (dict_get_none data "toAirport") predicted_price);;
  mret (predict_success predicted_price "USD" features 0.85%Q).

(** [POST /predict] on a body that is a JSON object, as the interface has
    it, or the JSON value [null] ([None]); [predict_json] below takes any
    JSON value. *)
Definition predict (E : env) (clk : clock) (body : option (gmap string json))
  : M response :=
  match body with
  | Some data =>
      if falsy_dict data then mret (failure 400 (message "No data provided"))
      else
        try_except (predict_body E clk data)
          (λ e, logger (error_prediction e);; mret (failure 500 (str_of e)))
  | None => mret (failure 400 (message "No data provided"))
  end.

(** [for flight in data['flights']]: what iterating the value yields. A
    dict yields its keys and a string its characters (neither has [get], so
    the first turn of the loop raises on them). *)
Definition py_iter (v : json) : result (list json) :=
  match v with
  | JArr l => Ok l
  | JObj m => Ok (JStr <$> (map_to_list m).*1)
  | JStr s => Ok ((λ c, JStr (String c EmptyString)) <$> list_ascii_of_string s)
  | _ => Raise TypeError
  end.

(** [flight.get]: only a dict has it. *)
Definition as_dict (v : json) : result (gmap string json) :=
  match v with
  | JObj m => Ok m
  | _ => Raise AttributeError
  end.

(** One turn of the loop of [predict_batch] (lines 293-306). *)
Definition predict_batch_item (E : env) (clk : clock) (flight : json) : M prediction :=
  flight ← lift (as_dict flight);
  features ← lift (extract_features clk flight);
  raw ← ensure_model_and_predict E features;
  let predicted_price := floor_and_round raw in
  mret (mk_prediction (dict_get_none flight "fromAirport")
          (dict_get_none flight "toAirport")
          (dict_get_none flight "departureDate") predicted_price).

(** The loop; [clks i] holds the clock readings of the [i]-th turn. *)
Fixpoint predict_batch_loop (E : env) (clks : nat → clock) (i : nat)
    (flights : list json) : M (list prediction) :=
  match flights with
  | [] => mret []
  | flight :: rest =>
      p ← predict_batch_item E (clks i) flight;
      ps ← predict_batch_loop E clks (S i) rest;
      mret (p :: ps)
  end.

(** [POST /predict/batch] on a body that is a JSON object or [null];
    [predict_batch_json] below takes any JSON value. *)
Definition predict_batch (E : env) (clks : nat → clock)
    (body : option (gmap string json)) : M response :=
  match body with
  | Some data =>
      match (if falsy_dict data then None else data !! "flights") with
      | Some flights =>
          try_except
            (flights ← lift (py_iter flights);
             predictions ← predict_batch_loop E clks 0 flights;
             mret (batch_success predictions))
            (λ e, logger (error_batch e);; mret (failure 500 (str_of e)))
      | None => mret (failure 400 (message "No flights data provided"))
      end
  | None => mret (failure 400 (message "No flights data provided"))
  end.

Definition model_info_names : list string :=
  ["duration_minutes"; "month"; "day_of_week"; "day_of_month";
   "days_until_departure"; "is_weekend"; "is_peak_season";
   "distance"; "is_international"].

(** [dict(zip(names, values))] with distinct names, in insertion order. *)
Fixpoint zip {A B} (l : list A) (k : list B) : list (A * B) :=
  match l, k with
  | a :: l', b :: k' => (a, b) :: zip l' k'
  | _, _ => []
  end.

(** [GET /model/info]; the handler has no [try], an exception leaves it. *)
Definition model_info : M response :=
  m ← get_model;
  match m with
  | None => mret (failure 404 (message "Model not loaded"))
  | Some m =>
      match fitted m with
      | Some p =>
          mret (info_success "RandomForestRegressor" (n_estimators m)
                  (max_depth m) (zip model_info_names (feature_importances_ p)))
      | None => raise NotFittedError
      end
  end.

(** [POST /model/retrain]: "Retrain the model". *)
Definition retrain (E : env) : M response :=
  try_except
    (train_model E;; mret (retrain_success "Model retrained successfully"))
    (λ e, logger (error_retrain e);; mret (failure 500 (str_of e))).

(** [GET /health]: the [model_loaded] flag. *)
Definition health_model_loaded (w : world) : bool :=
  if model w is None then false else true.

(** ** Requests of any JSON type

    [request.get_json()] may hand the handlers any JSON value, not only an
    object.  The definitions below take the value as it comes; on an
    object they are the handlers above. *)

(** [not v] for a JSON value: [None], [False], zero, and the empty string,
    list and dict are falsy. *)
Definition falsy (v : json) : bool :=
  match v with
  | JNull => true
  | JBool b => negb b
  | JNum q => Qeq_bool q 0
  | JStr s => if s is EmptyString then true else false
  | JArr l => if l is [] then true else false
  | JObj m => falsy_dict m
  end.

(** [extract_features(data)] on any argument: the first statement,
    [data.get(...)], raises [AttributeError] unless [data] is a dict. *)
Definition extract_features_value (clk : clock) (data : json) : result features :=
  match as_dict data with
  | Ok d => extract_features clk d
  | Raise e => Raise e
  end.

(** [POST /predict] on the value returned by [get_json]. *)
Definition predict_json (E : env) (clk : clock) (data : json) : M response :=
  if falsy data then mret (failure 400 (message "No data provided"))
  else
    try_except (d ← lift (as_dict data); predict_body E clk d)
      (λ e, logger (error_prediction e);; mret (failure 500 (str_of e))).

(** ['flights' in data]: a key test on a dict, a membership test on a
    list, a substring test on a string; numbers and booleans are not
    iterable. *)
Definition contains_flights (data : json) : result bool :=
  match data with
  | JObj m => Ok (if m !! "flights" is Some _ then true else false)
  | JArr l =>
      Ok (existsb (λ v, if v is JStr s then String.eqb s "flights" else false) l)
  | JStr s => Ok (is_substring "flights" s)
  | _ => Raise TypeError
  end.

(** [POST /predict/batch] on the value returned by [get_json]: on a list
    or a string that contains ['flights'], the subscript [data['flights']]
    raises [TypeError]. *)
Definition predict_batch_json (E : env) (clks : nat → clock) (data : json)
  : M response :=
  if falsy data then mret (failure 400 (message "No flights data provided"))
  else
    match data with
    | JObj m => predict_batch E clks (Some m)
    | _ =>
        match contains_flights data with
        | Ok false => mret (failure 400 (message "No flights data provided"))
        | Ok true =>
            logger (error_batch TypeError);;
            mret (failure 500 (str_of TypeError))
        | Raise e => logger (error_batch e);; mret (failure 500 (str_of e))
        end
    end.

(** The body of a request as [request.get_json()] takes it (Flask 2.1
    and later): JSON text yields its value; text that does not parse
    under a JSON content type raises [BadRequest], and a request with
    another content type, or none, raises as well ([UnsupportedMediaType]
    since Werkzeug 2.3).  Both handlers make the call inside their
    [try], so their [except] clause answers it. *)
Inductive request_body :=
| JsonBody (v : json)
| MalformedBody
| NotJsonBody.

Definition get_json (b : request_body) : result json :=
  match b with
  | JsonBody v => Ok v
  | MalformedBody => Raise BadRequest
  | NotJsonBody => Raise UnsupportedMediaType
  end.

(** [POST /predict], from the request. *)
Definition predict_request (E : env) (clk : clock) (b : request_body)
  : M response :=
  match get_json b with
  | Ok data => predict_json E clk data
  | Raise e => logger (error_prediction e);; mret (failure 500 (str_of e))
  end.

(** [POST /predict/batch], from the request. *)
Definition predict_batch_request (E : env) (clks : nat → clock)
    (b : request_body) : M response :=
  match get_json b with
  | Ok data => predict_batch_json E clks data
  | Raise e => logger (error_batch e);; mret (failure 500 (str_of e))
  end.

(** ** Notions of the design that the theorems compare the code with *)

(** Microseconds since midnight. *)
Definition time_of_day (d : datetime) : Z :=
  (dt_second d + dt_minute d * 60 + dt_hour d * 3600) * 1000000
  + dt_microsecond d.

(** The difference of two calendar dates, in days. *)
Definition calendar_days_between (a b : datetime) : Z :=
  toordinal a - toordinal b.

(** [p] is [x] rounded to two decimals: a whole number of hundredths at
    most half a hundredth away from [x] (a tie may go either way). *)
Definition nearest_hundredth (p x : Q) : Prop :=
  (∃ k : Z, p == inject_Z k / 100)%Q
  ∧ (x - (1 # 200) <= p)%Q ∧ (p <= x + (1 # 200))%Q.

(** A [departureDate] value on which [strptime] raises. *)
Definition parse_fails (v : json) : Prop :=
  match v with
  | JStr s => strptime_ymd s = None
  | _ => True
  end.

(** A domestic route: both airport fields of the request are codes of the
    fixed ten-code set. *)
Definition domestic_set : list string :=
  ["IST"; "SAW"; "ESB"; "ADB"; "AYT"; "BJV"; "DLM"; "TZX"; "GZT"; "VAN"].

Definition domestic_route (data : gmap string json) : Prop :=
  ∃ a b : string,
    data !! "fromAirport" = Some (JStr a) ∧ data !! "toAirport" = Some (JStr b)
    ∧ a ∈ domestic_set ∧ b ∈ domestic_set.

(** The adjusted price as the design states it. *)
Definition adjusted_price_formula (distance : Z) (duration : Q)
    (peak_season weekend : bool) (days_until : Z) : Q :=
  (40 + inject_Z distance * 0.005 + duration * 0.1
   + (if peak_season then 20 else 0)
   + (if weekend then 10 else 0)
   + (if days_until <? 7 then inject_Z ((7 - days_until) * 2) else 0))%Q.



(** Sample inputs used by the examples below. *)
Definition example_clock : clock :=
  mk_clock (mk_datetime 2024 7 1 12 0 0 0) (mk_datetime 2024 7 1 12 0 0 1)
    (mk_datetime 2024 7 1 12 0 0 2).

Definition example_request : gmap string json :=
  list_to_map [("fromAirport", JStr "IST"); ("toAirport", JStr "SAW");
               ("departureDate", JStr "2024-07-15"); ("durationMinutes", JNum 600)].

Definition request_without_airports : gmap string json :=
  list_to_map [("departureDate", JStr "2024-07-15"); ("durationMinutes", JNum 60)].

Definition request_lowercase : gmap string json :=
  list_to_map [("fromAirport", JStr "ist"); ("toAirport", JStr "saw");
               ("departureDate", JStr "2024-07-15")].

Definition example_batch : gmap string json :=
  list_to_map [("flights", JArr [JObj example_request; JObj request_lowercase])].

Definition constant_forest (c : Q) : predictor := mk_predictor (λ _, Ok c) [].

Definition example_env (c : Q) : env :=
  mk_env [] (λ _ _, Ok (constant_forest c)) true.

Definition failing_fit_env : env := mk_env [] (λ _ _, Raise FitError) true.

Definition fresh_world : world := mk_world None None [].

(** ** Further notions used by the theorems on edge behaviour *)

(** The calendar part of a [datetime] is a real date. *)
Definition valid_date (d : datetime) : Prop :=
  1 ≤ dt_year d ≤ 9999
  ∧ 1 ≤ dt_month d ≤ 12
  ∧ 1 ≤ dt_day d ≤ days_in_month (dt_year d) (dt_month d).

(** The time-of-day part is within a day. *)
Definition valid_time (d : datetime) : Prop :=
  0 ≤ dt_hour d ≤ 23 ∧ 0 ≤ dt_minute d ≤ 59 ∧ 0 ≤ dt_second d ≤ 59
  ∧ 0 ≤ dt_microsecond d ≤ 999999.

(** The same day at 00:00:00. *)
Definition midnight (d : datetime) : datetime :=
  mk_datetime (dt_year d) (dt_month d) (dt_day d) 0 0 0 0.

(** The value is a JSON string. *)
Definition is_str (v : json) : bool :=
  match v with
  | JStr _ => true
  | _ => false
  end.

(** * Theorems *)

(** Running a computation of [M] means unfolding its plumbing. *)
Ltac unfold_M :=
  unfold mbind, M_bind, mret, M_ret, lift, raise, logger, get_model, set_model,
    write_model_file, try_except;
  cbn [model model_file log].

(** ** Worked examples *)

Example strptime_ymd_iso :
  strptime_ymd "2024-07-15" = Some (mk_datetime 2024 7 15 0 0 0 0).
Proof. reflexivity. Qed.

Example strptime_ymd_short_fields :
  strptime_ymd "2024-7-5" = Some (mk_datetime 2024 7 5 0 0 0 0).
Proof. reflexivity. Qed.

Example strptime_ymd_rejects :
  strptime_ymd "2023-02-29" = None ∧ strptime_ymd "2024-13-01" = None
  ∧ strptime_ymd "2024-07-150" = None ∧ strptime_ymd "15/07/2024" = None.
Proof. by split_and!. Qed.

(** Decimal digits of other scripts are digits for [\d]: the year and the
    second digit of a day after 1 or 2 take them, the month does not. *)
Example strptime_ymd_unicode_digits :
  strptime_ymd "2024-07-1٥" = Some (mk_datetime 2024 7 15 0 0 0 0)
  ∧ strptime_ymd "２０２４-07-15" = Some (mk_datetime 2024 7 15 0 0 0 0)
  ∧ strptime_ymd "2024-٠٧-15" = None
  ∧ strptime_ymd "2024-07-٣0" = None.
Proof. by split_and!. Qed.

Example upper_examples :
  upper "ist" = "IST" ∧ upper "ıst" = "IST" ∧ upper "iﬅ" = "IST"
  ∧ upper "ſaw" = "SAW" ∧ upper "Esb1" = "ESB1".
Proof. by split_and!. Qed.

Example weekday_monday : weekday (mk_datetime 2024 7 15 0 0 0 0) = 0.
Proof. reflexivity. Qed.

Example strftime_ymd_pads :
  strftime_ymd (mk_datetime 2024 7 5 12 30 0 0) = "2024-07-05".
Proof. reflexivity. Qed.

(** Tomorrow seen from noon is less than a whole day away; today is
    already in the past. *)
Example timedelta_days_floor :
  timedelta_days (mk_datetime 2024 7 2 0 0 0 0) (mk_datetime 2024 7 1 12 0 0 0) = 0
  ∧ timedelta_days (mk_datetime 2024 7 1 0 0 0 0) (mk_datetime 2024 7 1 12 0 0 0) = -1.
Proof. by split. Qed.

Example round2_half_even :
  (round2 80.125 == 80.12)%Q ∧ (round2 80.135 == 80.14)%Q ∧ (round2 85 == 85)%Q.
Proof. by split_and!. Qed.

(** The example of the design notes: IST to SAW on 2024-07-15, 60 minutes. *)
Example extract_features_ist_saw :
  extract_features example_clock (<["durationMinutes" := JNum 60]> example_request)
  = Ok (mk_features (JNum 60) 7 0 15 13 0 1 50 0).
Proof. reflexivity. Qed.

(** ** Distance lookup *)

Lemma table_entry (A B : string) (d : Z) :
  AIRPORT_DISTANCES !! (A, B) = Some d → ((A, B), d) ∈ AIRPORT_DISTANCES_items.
Proof. apply elem_of_list_to_map_2. Qed.

(** No pair is listed in both directions, so the second lookup can never
    disagree with the first. *)
Lemma table_no_reverse (A B : string) (d : Z) :
  AIRPORT_DISTANCES !! (A, B) = Some d → AIRPORT_DISTANCES !! (B, A) = None.
Proof.
  intros H%table_entry. unfold AIRPORT_DISTANCES_items in H.
  repeat (apply elem_of_cons in H as [H|H];
          [injection H as -> -> _; vm_compute; reflexivity|]).
  by apply elem_of_nil in H.
Qed.

Lemma get_distance_str (A B : string) :
  get_distance (JStr A) (JStr B) =
  Ok (match AIRPORT_DISTANCES !! (A, B) with
      | Some d => d
      | None => default 500 (AIRPORT_DISTANCES !! (B, A))
      end).
Proof.
  unfold get_distance, table_lookup; cbn [hashable andb].
  destruct (AIRPORT_DISTANCES !! (A, B)); [done|].
  by destruct (AIRPORT_DISTANCES !! (B, A)).
Qed.

(** Only an unhashable argument makes the lookup raise. *)
Lemma table_lookup_hashable (a b : json) :
  hashable a = true → hashable b = true → ∃ o, table_lookup a b = Ok o.
Proof.
  intros Ha Hb. unfold table_lookup. rewrite Ha, Hb. cbn [andb].
  destruct a, b; eauto.
Qed.

Lemma get_distance_hashable (a b : json) :
  hashable a = true → hashable b = true → ∃ d, get_distance a b = Ok d.
Proof.
  intros Ha Hb. unfold get_distance.
  destruct (table_lookup_hashable a b Ha Hb) as [[d|] ->]; [eauto|].
  destruct (table_lookup_hashable b a Hb Ha) as [[d|] ->]; eauto.
Qed.

(** C8. Distance lookup is symmetric and total on airport-code strings:
    [get_distance A B] and [get_distance B A] agree, a number is always
    returned, and a pair listed in neither direction gets the 500 km
    default. *)
Theorem get_distance_symmetric_total (A B : string) :
  get_distance (JStr A) (JStr B) = get_distance (JStr B) (JStr A)
  ∧ (∃ d, get_distance (JStr A) (JStr B) = Ok d)
  ∧ (AIRPORT_DISTANCES !! (A, B) = None → AIRPORT_DISTANCES !! (B, A) = None →
     get_distance (JStr A) (JStr B) = Ok 500).
Proof.
  rewrite !get_distance_str. split_and!.
  - destruct (AIRPORT_DISTANCES !! (A, B)) as [d|] eqn:HAB.
    + by rewrite (table_no_reverse _ _ _ HAB).
    + by destruct (AIRPORT_DISTANCES !! (B, A)).
  - eauto.
  - by intros -> ->.
Qed.

Lemma get_distance_symmetric_total_witness :
  get_distance (JStr "SAW") (JStr "IST") = get_distance (JStr "IST") (JStr "SAW")
  ∧ get_distance (JStr "SAW") (JStr "IST") = Ok 50
  ∧ get_distance (JStr "JFK") (JStr "LAX") = Ok 500.
Proof.
  destruct (get_distance_symmetric_total "SAW" "IST") as (Hsym & _ & _).
  destruct (get_distance_symmetric_total "JFK" "LAX") as (_ & _ & Hdef).
  split_and!; [exact Hsym | reflexivity | apply Hdef; reflexivity].
Defined.

(** ** Feature names *)

(** C9. The nine feature names and their order are the same in the dict
    built by [extract_features] (hence in the frame handed to the model),
    in the training frame, and in the feature-importance report. *)
Theorem feature_names_fixed (f : features) (draws : list sample) :
  features_columns f = model_info_names
  ∧ training_columns draws = model_info_names
  ∧ model_info_names =
      ["duration_minutes"; "month"; "day_of_week"; "day_of_month";
       "days_until_departure"; "is_weekend"; "is_peak_season";
       "distance"; "is_international"].
Proof. done. Qed.

(** ** Feature extraction *)

(** The fields of a successful extraction, read off the code. *)
Lemma extract_features_Ok (clk : clock) (data : gmap string json) (f : features) :
  extract_features clk data = Ok f →
  let date_obj :=
    parse_departure_date clk
      (dict_get data "departureDate" (JStr (strftime_ymd (now_default clk)))) in
  duration_minutes f = dict_get data "durationMinutes" (JNum 90)
  ∧ month f = dt_month date_obj
  ∧ day_of_week f = weekday date_obj
  ∧ day_of_month f = dt_day date_obj
  ∧ days_until_departure f = Z.max 0 (timedelta_days date_obj (now_reference clk))
  ∧ is_weekend f = (if 5 <=? weekday date_obj then 1 else 0)
  ∧ is_peak_season f = (if bool_decide (dt_month date_obj ∈ [6; 7; 8; 12]) then 1 else 0)
  ∧ get_distance (dict_get data "fromAirport" (JStr "IST"))
      (dict_get data "toAirport" (JStr "SAW")) = Ok (distance f).
Proof.
  unfold extract_features.
  destruct (get_distance _ _) as [d|e]; [|done].
  intros [= <-]; cbn [duration_minutes month day_of_week day_of_month
    days_until_departure is_weekend is_peak_season distance].
  split_and!; try done.
  case_match; lia.
Qed.

(** ** The two domestic tests *)

(** C10. The domestic test of the override and the [is_international]
    feature can disagree.  A request that omits both airports is domestic
    for extraction (defaults IST and SAW) but not for the override (default
    empty string); a request with lowercase domestic codes is international
    for extraction (no case folding) but domestic for the override
    (upper-cased).  Both requests are non-empty, so [predict] reaches the
    override with them. *)
Theorem domestic_tests_disagree (clk : clock) :
  (falsy_dict request_without_airports = false
   ∧ (∃ f, extract_features clk request_without_airports = Ok f
           ∧ is_international f = 0)
   ∧ is_domestic request_without_airports = Ok false)
  ∧ (falsy_dict request_lowercase = false
     ∧ (∃ f, extract_features clk request_lowercase = Ok f
             ∧ is_international f = 1)
     ∧ is_domestic request_lowercase = Ok true).
Proof.
  assert (H1 : get_distance
                 (dict_get request_without_airports "fromAirport" (JStr "IST"))
                 (dict_get request_without_airports "toAirport" (JStr "SAW"))
               = Ok 50) by (vm_compute; reflexivity).
  assert (H2 : get_distance
                 (dict_get request_lowercase "fromAirport" (JStr "IST"))
                 (dict_get request_lowercase "toAirport" (JStr "SAW"))
               = Ok 500) by (vm_compute; reflexivity).
  split; (split_and!; [vm_compute; reflexivity | | vm_compute; reflexivity]);
    unfold extract_features; rewrite ?H1, ?H2;
    (eexists; split; [reflexivity|]);
    cbn [is_international]; vm_compute; reflexivity.
Qed.

(** ** Rounding and clamping *)

Lemma round_half_even_ge (k : Z) (y : Q) :
  (inject_Z k <= y)%Q → k ≤ round_half_even y.
Proof.
  intros Hk. apply Qfloor_resp_le in Hk. rewrite Qfloor_Z in Hk.
  unfold round_half_even. repeat case_match; lia.
Qed.

Lemma round_half_even_le (k : Z) (y : Q) :
  (y <= inject_Z k)%Q → round_half_even y ≤ k.
Proof.
  intros Hk. pose proof (Qfloor_resp_le _ _ Hk) as Hfl. rewrite Qfloor_Z in Hfl.
  pose proof (Qfloor_le y) as Hlo.
  unfold round_half_even.
  destruct (Z.eq_dec (Qfloor y) k) as [Heq|Hne].
  - rewrite Heq in *. destruct (Qcompare_spec (y - inject_Z k) (1 # 2)); [exfalso; lra | lia | exfalso; lra].
  - repeat case_match; lia.
Qed.

Lemma round2_bounds (x : Q) (a b : Z) :
  (inject_Z a <= x)%Q → (x <= inject_Z b)%Q →
  (inject_Z a <= round2 x)%Q ∧ (round2 x <= inject_Z b)%Q.
Proof.
  intros Ha Hb. unfold round2.
  assert (H1 : a * 100 ≤ round_half_even (x * 100)).
  { apply round_half_even_ge. rewrite inject_Z_mult.
    change (inject_Z 100) with 100%Q. lra. }
  assert (H2 : round_half_even (x * 100) ≤ b * 100).
  { apply round_half_even_le. rewrite inject_Z_mult.
    change (inject_Z 100) with 100%Q. lra. }
  rewrite Zle_Qle, inject_Z_mult in H1, H2.
  change (inject_Z 100) with 100%Q in *.
  split; [apply Qle_shift_div_l | apply Qle_shift_div_r]; lra.
Qed.

#[local] Instance round2_proper : Proper (Qeq ==> Qeq) round2.
Proof.
  intros x y Hxy. unfold round2, round_half_even.
  assert (Hm : (x * 100 == y * 100)%Q) by (by rewrite Hxy).
  rewrite (Qfloor_comp _ _ Hm).
  assert (Hc : (x * 100 - inject_Z (Qfloor (y * 100)) ?= 1 # 2)%Q
               = (y * 100 - inject_Z (Qfloor (y * 100)) ?= 1 # 2)%Q)
    by (by rewrite Hm).
  by rewrite Hc.
Qed.

Lemma floor_and_round_bounds (p : Q) :
  (p <= 85)%Q → (30 <= floor_and_round p)%Q ∧ (floor_and_round p <= 85)%Q.
Proof.
  intros Hp. unfold floor_and_round.
  apply (round2_bounds _ 30 85).
  - apply Q.le_max_r.
  - apply Q.max_lub; [exact Hp | done].
Qed.

Lemma Qle_bool_false (x y : Q) : Qle_bool x y = false → (y < x)%Q.
Proof.
  intros H. apply Qnot_le_lt. intros Hle%Qle_bool_iff. congruence.
Qed.

(** After the override a domestic price is at most 85. *)
Lemma domestic_override_le_85 (f : features) (raw p : Q) :
  domestic_override true f raw = Ok p → (p <= 85)%Q.
Proof.
  unfold domestic_override; cbn [andb].
  destruct (Qle_bool raw 80) eqn:Hraw; cbn [negb].
  - intros [= <-]. apply Qle_bool_iff in Hraw. lra.
  - destruct (adjusted_price f); [|done]. intros [= <-]. apply Q.le_min_r.
Qed.

(** [round2] gives a nearest hundredth. *)
Lemma round2_nearest (x : Q) : nearest_hundredth (round2 x) x.
Proof.
  unfold nearest_hundredth, round2. split; [by eexists|].
  pose proof (Qfloor_le (x * 100)) as Hlo.
  pose proof (Qlt_floor (x * 100)) as Hhi.
  rewrite inject_Z_plus in Hhi. change (inject_Z 1) with 1%Q in Hhi.
  unfold round_half_even.
  set (n := Qfloor (x * 100)) in *.
  destruct (Qcompare_spec (x * 100 - inject_Z n) (1 # 2)) as [Heq|Hlt|Hgt].
  - destruct (Z.even n).
    + split; apply Qle_shift_div_l || apply Qle_shift_div_r; lra.
    + rewrite inject_Z_plus. change (inject_Z 1) with 1%Q.
      split; apply Qle_shift_div_l || apply Qle_shift_div_r; lra.
  - split; apply Qle_shift_div_l || apply Qle_shift_div_r; lra.
  - rewrite inject_Z_plus. change (inject_Z 1) with 1%Q.
    split; apply Qle_shift_div_l || apply Qle_shift_div_r; lra.
Qed.

(** ** The single-prediction handler, step by step *)

Lemma predict_success_inv (E : env) (clk : clock) (data : gmap string json)
    (w w' : world) (p : Q) (cur : string) (f : features) (c : Q) :
  predict E clk (Some data) w = (Ok (predict_success p cur f c), w') →
  ∃ raw w1 dom q,
    extract_features clk data = Ok f
    ∧ ensure_model_and_predict E f w = (Ok raw, w1)
    ∧ is_domestic data = Ok dom
    ∧ domestic_override dom f raw = Ok q
    ∧ p = floor_and_round q.
Proof.
  unfold predict. destruct (falsy_dict data); [done|].
  unfold predict_body; unfold_M.
  destruct (extract_features clk data) as [f0|] eqn:Hf0; [|done].
  destruct (ensure_model_and_predict E f0 w) as [[raw|] w1] eqn:Hraw; [|done].
  destruct (is_domestic data) as [dom|] eqn:Hdom; [|done].
  destruct (domestic_override dom f0 raw) as [q|] eqn:Hq; [|done].
  intros [= Hp Hcur Hf Hc Hw]. subst. by exists raw, w1, dom, q.
Qed.

Lemma predict_success_intro (E : env) (clk : clock) (data : gmap string json)
    (w w1 : world) (f : features) (raw q : Q) (dom : bool) :
  falsy_dict data = false →
  extract_features clk data = Ok f →
  ensure_model_and_predict E f w = (Ok raw, w1) →
  is_domestic data = Ok dom →
  domestic_override dom f raw = Ok q →
  predict E clk (Some data) w =
    (Ok (predict_success (floor_and_round q) "USD" f 0.85%Q),
     mk_world (model w1) (model_file w1)
       (log w1 ++ [info_prediction (dict_get_none data "fromAirport")
                     (dict_get_none data "toAirport") (floor_and_round q)])).
Proof.
  intros Hne Hf Hraw Hdom Hq. unfold predict. rewrite Hne.
  unfold predict_body; unfold_M.
  by rewrite Hf, Hraw, Hdom, Hq.
Qed.

Lemma upper_domestic (a : string) :
  a ∈ domestic_set → upper a = a ∧ a ∈ predict_domestic_airports.
Proof.
  unfold domestic_set. intros H.
  repeat (apply elem_of_cons in H as [->|H];
          [split; [reflexivity | unfold predict_domestic_airports; set_solver]|]).
  by apply elem_of_nil in H.
Qed.

Lemma domestic_route_is_domestic (data : gmap string json) :
  domestic_route data → is_domestic data = Ok true.
Proof.
  intros (a & b & Ha & Hb & [Hua Hia]%upper_domestic & [Hub Hib]%upper_domestic).
  unfold is_domestic, dict_get. rewrite Ha, Hb. cbn [py_upper].
  rewrite Hua, Hub. by rewrite !bool_decide_true.
Qed.

Lemma domestic_route_not_falsy (data : gmap string json) :
  domestic_route data → falsy_dict data = false.
Proof.
  intros (a & b & Ha & _). unfold falsy_dict. apply bool_decide_false.
  intros Hsize%map_size_empty_iff. by rewrite Hsize, lookup_empty in Ha.
Qed.

Lemma extract_features_domestic_total (clk : clock) (data : gmap string json) :
  domestic_route data → ∃ f, extract_features clk data = Ok f.
Proof.
  intros (a & b & Ha & Hb & _). unfold extract_features, dict_get.
  rewrite Ha, Hb.
  destruct (get_distance_hashable (JStr a) (JStr b) eq_refl eq_refl) as [d ->].
  by eexists.
Qed.

(** Where both airport fields are given as codes of the set, whatever the
    model outputs, the price that single prediction returns lies in
    [30, 85]. *)
Lemma predict_domestic_price_bounds (E : env) (clk : clock)
    (data : gmap string json) (w w' : world)
    (p : Q) (cur : string) (f : features) (c : Q) :
  domestic_route data →
  predict E clk (Some data) w = (Ok (predict_success p cur f c), w') →
  (30 <= p)%Q ∧ (p <= 85)%Q.
Proof.
  intros Hroute (raw & w1 & dom & q & _ & _ & Hdom & Hq & ->)%predict_success_inv.
  rewrite (domestic_route_is_domestic _ Hroute) in Hdom. injection Hdom as <-.
  apply floor_and_round_bounds. by eapply domestic_override_le_85.
Qed.

Lemma example_request_domestic : domestic_route example_request.
Proof.
  exists "IST", "SAW". split_and!; [reflexivity | reflexivity | | ];
    unfold domestic_set; set_solver.
Qed.

(** The sequence of updates in the code computes the stated formula. *)
Lemma adjusted_price_numeric (f : features) (duration : Q) :
  duration_minutes f = JNum duration →
  ∃ adjusted,
    adjusted_price f = Ok adjusted
    ∧ (adjusted ==
       adjusted_price_formula (distance f) duration
         (negb (is_peak_season f =? 0)) (negb (is_weekend f =? 0))
         (days_until_departure f))%Q.
Proof.
  intros Hdur. unfold adjusted_price, adjusted_price_formula.
  rewrite Hdur; cbn [py_mul_float].
  eexists; split; [reflexivity|].
  destruct (is_peak_season f =? 0), (is_weekend f =? 0),
    (days_until_departure f <? 7); cbn [negb]; ring.
Qed.

(** Where both airport fields are given as codes of the set and the raw
    prediction exceeds 80, the override computes min(raw, max(adjusted,
    35)) capped at 85, with the adjusted price of the design. *)
Lemma domestic_override_given_codes (clk : clock) (data : gmap string json)
    (f : features) (raw duration : Q) :
  domestic_route data →
  extract_features clk data = Ok f →
  duration_minutes f = JNum duration →
  (80 < raw)%Q →
  let adjusted :=
    adjusted_price_formula (distance f) duration
      (bool_decide (is_peak_season f = 1)) (bool_decide (is_weekend f = 1))
      (days_until_departure f) in
  ∃ q,
    is_domestic data = Ok true
    ∧ domestic_override true f raw = Ok q
    ∧ (q == Qmin (Qmin raw (Qmax adjusted 35)) 85)%Q.
Proof.
  intros Hroute Hf Hdur Hgt adjusted.
  destruct (adjusted_price_numeric f duration Hdur) as (adj & Hadj & Hadj_eq).
  assert (Hflags : negb (is_peak_season f =? 0) = bool_decide (is_peak_season f = 1)
                   ∧ negb (is_weekend f =? 0) = bool_decide (is_weekend f = 1)).
  { apply extract_features_Ok in Hf as (_ & _ & _ & _ & _ & -> & -> & _).
    split; repeat case_match; done. }
  destruct Hflags as [Hpeak Hwe]. rewrite Hpeak, Hwe in Hadj_eq.
  fold adjusted in Hadj_eq.
  exists (Qmin (Qmin raw (Qmax adj 35)) 85).
  split; [by apply domestic_route_is_domestic|]. split.
  - unfold domestic_override; cbn [andb].
    destruct (Qle_bool raw 80) eqn:Hle.
    + apply Qle_bool_iff in Hle. lra.
    + cbn [negb]. by rewrite Hadj.
  - by rewrite Hadj_eq.
Qed.

(** ** Training, loading and retraining *)

Lemma train_new_model_fit_raises (E : env) (w : world) (e : exn) :
  forest_fit E (training_frame (seeded_draws E)) (training_labels (seeded_draws E))
    = Raise e →
  train_new_model E w =
    (Raise e, mk_world (Some (mk_estimator 100 10 None)) (model_file w)
                (log w ++ [info_training])).
Proof.
  intros Hfit. unfold train_new_model; unfold_M. by rewrite Hfit.
Qed.

Lemma train_new_model_fit_ok (E : env) (w : world) (p : predictor) :
  forest_fit E (training_frame (seeded_draws E)) (training_labels (seeded_draws E))
    = Ok p →
  dump_ok E = true →
  train_new_model E w =
    (Ok tt, mk_world (Some (mk_estimator 100 10 (Some p)))
              (Some (Pickled (mk_estimator 100 10 (Some p))))
              (log w ++ [info_training] ++ [info_trained_saved])).
Proof.
  intros Hfit Hdump.
  unfold train_new_model; unfold_M. rewrite Hfit, Hdump.
  cbn [model model_file log]. by rewrite <- app_assoc.
Qed.

(** C1. What [POST /model/retrain] does when a loadable artifact exists:
    it only reloads that artifact.  Nothing is regenerated or refitted (the
    result does not depend on [E]), the file is not rewritten, and the log
    gains "Model loaded from file"; the answer is still "Model retrained
    successfully".  The retrain operation is therefore not unconditional. *)
Theorem retrain_reloads_persisted_artifact (E : env) (m0 : estimator)
    (in_memory : option estimator) (lg : list log_record) :
  retrain E (mk_world in_memory (Some (Pickled m0)) lg) =
    (Ok (retrain_success "Model retrained successfully"),
     mk_world (Some m0) (Some (Pickled m0)) (lg ++ [info_model_loaded])).
Proof. reflexivity. Qed.

(** After a start-up that trained and saved the model, a retrain request
    succeeds even where fitting would fail: nothing is fitted, the model in
    memory stays the one of the start-up. *)
Example retrain_after_startup :
  let w := (startup (example_env 100) fresh_world).2 in
  let r := retrain failing_fit_env w in
  r.1 = Ok (retrain_success "Model retrained successfully")
  ∧ model r.2 = model w
  ∧ model_file r.2 = model_file w
  ∧ log r.2 = [info_training; info_trained_saved; info_model_loaded].
Proof. by split_and!. Qed.

(** The claim of C2 fails when the artifact is corrupt and fitting works:
    loading fails, yet [train_model] reports nothing and the model
    reference, unset before, now holds the newly fitted model. *)
Lemma train_model_load_failure_counterexample :
  let w := mk_world None (Some Corrupt) [] in
  let r := train_model (example_env 100) w in
  model_file w = Some Corrupt
  ∧ r.1 = Ok tt
  ∧ ¬ (∃ e, r.1 = Raise e)
  ∧ model w = None
  ∧ model r.2 = Some (mk_estimator 100 10 (Some (constant_forest 100)))
  ∧ model r.2 ≠ model w
  ∧ log r.2 = [warning_load_failed; info_training; info_trained_saved].
Proof. split_and!; try done. by intros [e He]. Qed.

(** When fitting raises, the global already refers to the new, unfitted
    estimator (it is assigned before [fit] is called). *)
Lemma train_model_fit_failure_example :
  let r := train_model failing_fit_env fresh_world in
  r.1 = Raise FitError
  ∧ model r.2 = Some (mk_estimator 100 10 None)
  ∧ health_model_loaded r.2 = true.
Proof. by split_and!. Qed.

(** C2, amended. With no loadable artifact (the file is absent, or loading
    it fails), [train_model] goes on to training; a load failure is only
    logged as a warning.  A fit failure is then reported to the caller:
    [train_model] raises it and [retrain] answers 500 with its text.  If
    fitting and saving succeed, nothing is reported and the model
    reference holds the new model. *)
Theorem train_model_failure_reporting (E : env) (w : world) :
  (∀ m, model_file w ≠ Some (Pickled m)) →
  let X := training_frame (seeded_draws E) in
  let y := training_labels (seeded_draws E) in
  (model_file w = Some Corrupt →
   train_model E w =
     train_new_model E
       (mk_world (model w) (model_file w) (log w ++ [warning_load_failed])))
  ∧ (∀ e, forest_fit E X y = Raise e →
          (train_model E w).1 = Raise e
          ∧ (retrain E w).1 = Ok (failure 500 (str_of e)))
  ∧ (∀ p, forest_fit E X y = Ok p → dump_ok E = true →
          (train_model E w).1 = Ok tt
          ∧ model (train_model E w).2 = Some (mk_estimator 100 10 (Some p))).
Proof.
  intros Hfile X y. split_and!.
  - intros Hcorrupt. unfold train_model. rewrite Hcorrupt.
    unfold_M. by rewrite Hcorrupt.
  - intros e Hfit. unfold retrain, train_model; unfold_M.
    destruct (model_file w) as [[m|]|]; [by destruct (Hfile m)| |];
      unfold_M; cbn [fst snd];
      by rewrite (train_new_model_fit_raises _ _ _ Hfit).
  - intros p Hfit Hdump. unfold train_model.
    destruct (model_file w) as [[m|]|]; [by destruct (Hfile m)| |];
      unfold_M; cbn [fst snd];
      by rewrite (train_new_model_fit_ok _ _ _ Hfit Hdump).
Qed.

Lemma train_model_failure_reporting_witness :
  let w := mk_world None (Some Corrupt) [] in
  (train_model failing_fit_env w).1 = Raise FitError
  ∧ (retrain failing_fit_env w).1 = Ok (failure 500 (str_of FitError))
  ∧ (train_model (example_env 100) w).1 = Ok tt.
Proof.
  intros w.
  assert (Hfile : ∀ m, model_file w ≠ Some (Pickled m)) by (intros m; discriminate).
  destruct (train_model_failure_reporting failing_fit_env w Hfile) as (_ & Hraise & _).
  destruct (train_model_failure_reporting (example_env 100) w Hfile) as (_ & _ & Hok).
  destruct (Hraise FitError eq_refl) as [H1 H2].
  destruct (Hok (constant_forest 100) eq_refl eq_refl) as [H3 _].
  split_and!; [exact H1 | exact H2 | exact H3].
Defined.

(** ** Batch prediction *)

Section Batch.
Context (E : env) (clks : nat → clock).

Lemma train_model_Ok_model (w w1 : world) :
  train_model E w = (Ok tt, w1) → ∃ m, model w1 = Some m.
Proof.
  assert (Hnew : ∀ w0, train_new_model E w0 = (Ok tt, w1) → ∃ m, model w1 = Some m).
  { intros w0. unfold train_new_model; unfold_M.
    destruct (forest_fit E _ _) as [p|]; [|done].
    destruct (dump_ok E); [|done].
    intros [= <-]. by eexists. }
  unfold train_model. destruct (model_file w) as [[m|]|].
  - intros [= <-]. by eexists.
  - unfold_M. apply Hnew.
  - apply Hnew.
Qed.






End Batch.


(** * Further properties of the code *)

(** ** Dates *)

Lemma digit_val_range (c : ascii) (d : Z) : digit_val c = Some d → 0 ≤ d ≤ 9.
Proof. unfold digit_val. case_match; [|done]. intros [= <-]. lia. Qed.

Lemma decimal_digit_range (s rest : string) (d : Z) :
  decimal_digit s = Some (d, rest) → 0 ≤ d ≤ 9.
Proof.
  unfold decimal_digit. destruct (utf8_decode s) as [[cp r]|]; [|done].
  destruct (find _ Nd_zeros) as [z|] eqn:Hz; [|done].
  apply find_some in Hz as [_ Hz]. intros [= <- _]. lia.
Qed.

Lemma ascii_second_range (rest1 rest2 : string) (lo hi d : Z) :
  ascii_second rest1 lo hi = Some (d, rest2) → lo ≤ d ≤ hi.
Proof.
  unfold ascii_second. destruct rest1 as [|c2 r2]; [done|].
  destruct (digit_val c2) as [d2|]; [|done].
  destruct ((lo <=? d2) && (d2 <=? hi)) eqn:H; [|done].
  intros [= <- _]. lia.
Qed.

Ltac digit_ranges :=
  repeat match goal with
  | H : digit_val _ = Some _ |- _ => apply digit_val_range in H
  | H : decimal_digit _ = Some _ |- _ => apply decimal_digit_range in H
  | H : ascii_second _ _ _ = Some _ |- _ => apply ascii_second_range in H
  end.

Lemma parse_year_range (s rest : string) (y : Z) :
  parse_year s = Some (y, rest) → 0 ≤ y ≤ 9999.
Proof.
  unfold parse_year. intros H.
  repeat case_match; simplify_eq; digit_ranges; lia.
Qed.

Lemma parse_month_range (s rest : string) (m : Z) :
  parse_month s = Some (m, rest) → 1 ≤ m ≤ 12.
Proof.
  unfold parse_month. intros H.
  repeat case_match; simplify_eq; digit_ranges; lia.
Qed.

Lemma parse_day_range (s rest : string) (d : Z) :
  parse_day s = Some (d, rest) → 1 ≤ d ≤ 31.
Proof.
  unfold parse_day. intros H.
  repeat case_match; simplify_eq; digit_ranges; lia.
Qed.

(** Whatever [strptime] accepts is a real date at midnight. *)
Lemma strptime_ymd_valid (s : string) (d : datetime) :
  strptime_ymd s = Some d → valid_date d ∧ midnight d = d.
Proof.
  unfold strptime_ymd. intros H.
  destruct (parse_year s) as [[y [|dash rest]]|] eqn:Hy; try done.
  destruct (Ascii.eqb dash "-"); [|done].
  destruct (parse_month rest) as [[m rest']|] eqn:Hm; [|done].
  destruct (parse_day rest') as [[dd [|]]|] eqn:Hd; try done.
  destruct ((1 <=? _) && _) eqn:Hchk; [|done].
  injection H as <-. apply andb_prop in Hchk as [Hy1 Hdd].
  apply parse_year_range in Hy.
  apply parse_month_range in Hm. apply parse_day_range in Hd.
  unfold valid_date, midnight; cbn [dt_year dt_month dt_day].
  split; [lia | reflexivity].
Qed.

Lemma weekday_range (d : datetime) : 0 ≤ weekday d ≤ 6.
Proof. unfold weekday. pose proof (Z.mod_pos_bound (toordinal d + 6) 7). lia. Qed.

Lemma days_in_month_le_31 (y m : Z) : days_in_month y m ≤ 31.
Proof.
  unfold days_in_month. case_match; [lia|].
  destruct (Z.to_nat m) as [|[|[|[|[|[|[|[|[|[|[|[|[|[|]]]]]]]]]]]]]]; cbn; lia.
Qed.

(** ** Distances *)

Lemma table_values_bounds (A B : string) (d : Z) :
  AIRPORT_DISTANCES !! (A, B) = Some d → 50 ≤ d ≤ 11000.
Proof.
  intros H%table_entry. unfold AIRPORT_DISTANCES_items in H.
  repeat (apply elem_of_cons in H as [H|H]; [injection H as _ _ ->; lia|]).
  by apply elem_of_nil in H.
Qed.

Lemma table_no_diagonal (A : string) : AIRPORT_DISTANCES !! (A, A) = None.
Proof.
  destruct (AIRPORT_DISTANCES !! (A, A)) as [d|] eqn:H; [|done].
  by rewrite (table_no_reverse _ _ _ H) in H.
Qed.

Lemma Ok_inj {A : Type} (x y : A) : Ok x = Ok y → x = y.
Proof. by intros [=]. Qed.

Lemma table_lookup_Some (a b : json) (o : Z) :
  table_lookup a b = Ok (Some o) → 50 ≤ o ≤ 11000.
Proof.
  unfold table_lookup. destruct (hashable a && hashable b); [|discriminate].
  destruct a, b; try discriminate. intros H%Ok_inj. by eapply table_values_bounds.
Qed.

Lemma get_distance_in_table_range (a b : json) (d : Z) :
  get_distance a b = Ok d → 50 ≤ d ≤ 11000.
Proof.
  unfold get_distance.
  destruct (table_lookup a b) as [[o|]|] eqn:H1; [|  |discriminate].
  - intros [= <-]. by eapply table_lookup_Some.
  - destruct (table_lookup b a) as [[o|]|] eqn:H2; [| |discriminate].
    + intros [= <-]. by eapply table_lookup_Some.
    + intros [= <-]. lia.
Qed.

(** X1. Whenever the lookup returns, for arguments of any JSON type, the
    distance lies between 50 and 11000 km; in particular it is never zero
    or negative. *)
Theorem get_distance_bounds (a b : json) (d : Z) :
  get_distance a b = Ok d → 50 ≤ d ≤ 11000.
Proof. apply get_distance_in_table_range. Qed.

Lemma get_distance_bounds_witness :
  get_distance (JStr "LAX") (JStr "IST") = Ok 11000 ∧ 50 ≤ 11000 ≤ 11000.
Proof.
  split; [reflexivity|].
  exact (get_distance_bounds (JStr "LAX") (JStr "IST") 11000 eq_refl).
Defined.

(** X2. The distance from an airport to itself is the 500 km default, for
    every code: the table has no diagonal entry and the code has no special
    case for equal airports. *)
Theorem get_distance_same_airport (A : string) :
  get_distance (JStr A) (JStr A) = Ok 500.
Proof. rewrite get_distance_str. by rewrite table_no_diagonal. Qed.

(** ** Feature extraction: errors, ranges, defaults *)

(** X3. Called on any JSON value, extraction raises in exactly two cases:
    [AttributeError] when the argument is not an object (it has no
    [get]), and [TypeError] when it is an object whose [fromAirport] or
    [toAirport] is a JSON array or object (an unhashable tuple component).
    Nothing else in the argument makes it fail. *)
Theorem extract_features_value_raises_iff (clk : clock) (data : json) (e : exn) :
  extract_features_value clk data = Raise e ↔
  (e = AttributeError ∧ ∀ m, data ≠ JObj m)
  ∨ (e = TypeError
     ∧ ∃ m, data = JObj m
            ∧ (hashable (dict_get m "fromAirport" (JStr "IST")) = false
               ∨ hashable (dict_get m "toAirport" (JStr "SAW")) = false)).
Proof.
  unfold extract_features_value.
  destruct data as [| | | | |m]; cbn [as_dict];
    try (split; [intros [= <-]; by left
                | intros [[-> _]|(_ & m & Hm & _)]; [done | discriminate Hm]]).
  unfold extract_features.
  set (a := dict_get m "fromAirport" (JStr "IST")).
  set (b := dict_get m "toAirport" (JStr "SAW")).
  assert (Hraise : hashable a = false ∨ hashable b = false →
                   get_distance a b = Raise TypeError).
  { intros H. unfold get_distance, table_lookup.
    destruct (hashable a), (hashable b); try done; by destruct H. }
  split.
  - destruct (hashable a) eqn:Ha, (hashable b) eqn:Hb;
      [destruct (get_distance_hashable a b Ha Hb) as [d ->]; done | | |];
      (rewrite Hraise by auto; intros [= <-]; right; split; [done|];
       exists m; split; [done|]; auto).
  - intros [[_ Hm]|(-> & m' & Hm & Hh)]; [by destruct (Hm m)|].
    injection Hm as <-. by rewrite (Hraise Hh).
Qed.

Lemma extract_features_value_raises_iff_witness :
  extract_features_value example_clock (JStr "IST-SAW") = Raise AttributeError
  ∧ extract_features_value example_clock
      (JObj (<["toAirport" := JArr []]> example_request)) = Raise TypeError.
Proof.
  split.
  - apply (extract_features_value_raises_iff example_clock (JStr "IST-SAW")).
    left. split; [reflexivity | discriminate].
  - apply (extract_features_value_raises_iff example_clock).
    right. split; [reflexivity|]. eexists. split; [reflexivity|].
    right. vm_compute. reflexivity.
Defined.

Lemma parse_departure_date_valid (clk : clock) (v : json) :
  valid_date (now_fallback clk) → valid_date (parse_departure_date clk v).
Proof.
  intros Hnow. unfold parse_departure_date. destruct v; try done.
  destruct (strptime_ymd s) as [d|] eqn:Hd; [|done].
  by apply strptime_ymd_valid in Hd as [? _].
Qed.

(** X4. Every extracted vector is within its ranges, provided the clock
    shows a real date: month 1..12, day of week 0..6, day of month 1..31,
    days until departure at least 0, the three flags 0 or 1 (the weekend
    flag set exactly for days 5 and 6), distance within 50..11000. *)
Theorem extract_features_ranges (clk : clock) (data : gmap string json)
    (f : features) :
  valid_date (now_fallback clk) →
  extract_features clk data = Ok f →
  1 ≤ month f ≤ 12
  ∧ 0 ≤ day_of_week f ≤ 6
  ∧ 1 ≤ day_of_month f ≤ 31
  ∧ 0 ≤ days_until_departure f
  ∧ (is_weekend f = 1 ∧ 5 ≤ day_of_week f ∨ is_weekend f = 0 ∧ day_of_week f < 5)
  ∧ (is_peak_season f = 1 ∧ month f ∈ [6; 7; 8; 12]
     ∨ is_peak_season f = 0 ∧ month f ∉ [6; 7; 8; 12])
  ∧ (is_international f = 0 ∨ is_international f = 1)
  ∧ 50 ≤ distance f ≤ 11000.
Proof.
  intros Hnow Hext.
  assert (Hintl : is_international f = 0 ∨ is_international f = 1).
  { unfold extract_features in Hext. destruct (get_distance _ _); [|done].
    injection Hext as <-. cbn [is_international]. case_match; auto. }
  apply extract_features_Ok in Hext
    as (_ & Hm & Hw & Hd & Hdays & Hwe & Hpk & Hdist).
  set (date_obj := parse_departure_date clk _) in *.
  pose proof (parse_departure_date_valid clk
                (dict_get data "departureDate"
                   (JStr (strftime_ymd (now_default clk)))) Hnow)
    as (_ & Hmonth & Hday).
  fold date_obj in Hmonth, Hday.
  pose proof (days_in_month_le_31 (dt_year date_obj) (dt_month date_obj)).
  pose proof (weekday_range date_obj).
  apply get_distance_in_table_range in Hdist.
  rewrite Hm, Hw, Hd, Hdays, Hwe, Hpk.
  split_and!; try lia; try done.
  - destruct (5 <=? weekday date_obj) eqn:H5; [left | right]; lia.
  - case_bool_decide; [left | right]; done.
Qed.

Lemma extract_features_ranges_witness :
  let f := mk_features (JNum 600) 7 0 15 13 0 1 50 0 in
  extract_features example_clock example_request = Ok f
  ∧ 1 ≤ month f ≤ 12 ∧ 50 ≤ distance f ≤ 11000.
Proof.
  intros f.
  assert (Hnow : valid_date (now_fallback example_clock)) by (vm_compute; intuition discriminate).
  assert (Hf : extract_features example_clock example_request = Ok f) by reflexivity.
  destruct (extract_features_ranges example_clock example_request f Hnow Hf)
    as (Hm & _ & _ & _ & _ & _ & _ & Hd).
  split_and!; [exact Hf | apply Hm | apply Hm | apply Hd | apply Hd].
Defined.

(** X5. A departure less than 24 hours ahead of the current instant, or in
    the past, has [days_until_departure] 0, and only such a departure has. *)
Theorem days_until_departure_zero_iff (clk : clock) (data : gmap string json)
    (f : features) :
  extract_features clk data = Ok f →
  let date_obj :=
    parse_departure_date clk
      (dict_get data "departureDate" (JStr (strftime_ymd (now_default clk)))) in
  days_until_departure f = 0 ↔
  total_microseconds date_obj - total_microseconds (now_reference clk)
    < microseconds_per_day.
Proof.
  intros (_ & _ & _ & _ & Hdays & _)%extract_features_Ok date_obj.
  fold date_obj in Hdays. rewrite Hdays.
  unfold timedelta_days, microseconds_per_day.
  set (a := total_microseconds date_obj - total_microseconds (now_reference clk)).
  Z.div_mod_to_equations. lia.
Qed.

Lemma days_until_departure_zero_iff_witness :
  let data := <["departureDate" := JStr "2024-07-02"]> example_request in
  let f := mk_features (JNum 600) 7 1 2 0 0 1 50 0 in
  extract_features example_clock data = Ok f ∧ days_until_departure f = 0.
Proof.
  intros data f.
  assert (Hf : extract_features example_clock data = Ok f) by reflexivity.
  split; [exact Hf|].
  apply (days_until_departure_zero_iff example_clock data f Hf).
  vm_compute. reflexivity.
Defined.

(** ** The default departure date *)

Ltac split_range x n :=
  first [ by (exfalso; lia)
        | destruct (Z.eq_dec x n) as [->|?];
          [ | let n' := eval compute in (n + 1) in split_range x n' ] ].

Lemma parse_month_pad2 (m : Z) (rest : string) :
  1 ≤ m ≤ 12 →
  parse_month (String (digit_char (m / 10)) (String (digit_char m) (String "-" rest)))
  = Some (m, rest).
Proof. intros Hm. split_range m 1; reflexivity. Qed.

Lemma parse_day_pad2 (d : Z) :
  1 ≤ d ≤ 31 →
  parse_day (String (digit_char (d / 10)) (String (digit_char d) EmptyString))
  = Some (d, EmptyString).
Proof. intros Hd. split_range d 1; reflexivity. Qed.

Lemma decimal_digits (y : Z) :
  0 ≤ y ≤ 9999 →
  (y / 1000) mod 10 * 1000 + (y / 100) mod 10 * 100 + (y / 10) mod 10 * 10
  + y mod 10 = y.
Proof. intros Hy. Z.div_mod_to_equations. lia. Qed.

Lemma decimal_digit_digit_char (d : Z) (rest : string) :
  decimal_digit (String (digit_char d) rest) = Some (d mod 10, rest).
Proof.
  unfold digit_char. pose proof (Z.mod_pos_bound d 10 eq_refl) as Hr.
  set (k := d mod 10) in *. clearbody k.
  split_range k 0; reflexivity.
Qed.

Lemma parse_year_pad4 (y : Z) (rest : string) :
  0 ≤ y ≤ 9999 →
  parse_year
    (String (digit_char (y / 1000))
       (String (digit_char (y / 100))
          (String (digit_char (y / 10)) (String (digit_char y) rest))))
  = Some (y, rest).
Proof.
  intros Hy. unfold parse_year. rewrite !decimal_digit_digit_char.
  by rewrite decimal_digits.
Qed.

(** Formatting a real date and parsing it back gives that day at midnight. *)
Lemma strptime_strftime (d : datetime) :
  valid_date d → strptime_ymd (strftime_ymd d) = Some (midnight d).
Proof.
  intros (Hy & Hm & Hd).
  pose proof (days_in_month_le_31 (dt_year d) (dt_month d)) as H31.
  unfold strftime_ymd, pad4, pad2. cbv beta iota fix delta [String.append].
  unfold strptime_ymd. rewrite parse_year_pad4 by lia.
  change (Ascii.eqb "-" "-") with true. cbv beta iota.
  rewrite parse_month_pad2 by done. rewrite parse_day_pad2 by lia.
  assert (Hchk : (1 <=? dt_year d) && (dt_day d <=? days_in_month (dt_year d) (dt_month d))
                 = true) by (apply andb_true_intro; split; lia).
  by rewrite Hchk.
Qed.

Lemma midnight_le (d : datetime) :
  valid_time d → total_microseconds (midnight d) ≤ total_microseconds d.
Proof.
  intros (Hh & Hmi & Hs & Hus). unfold total_microseconds, midnight, toordinal.
  cbn [dt_year dt_month dt_day dt_hour dt_minute dt_second dt_microsecond]. lia.
Qed.

(** X6. A request without [departureDate] is priced for today: the date
    features are those of the current date, and, the clock not running
    backwards between its two readings, [days_until_departure] is 0.
    Stated for the years 1000 to 9999, which [strftime] writes with four
    digits on every platform. *)
Theorem extract_features_default_date (clk : clock) (data : gmap string json)
    (f : features) :
  data !! "departureDate" = None →
  valid_date (now_default clk) →
  valid_time (now_default clk) →
  1000 ≤ dt_year (now_default clk) →
  total_microseconds (now_default clk) ≤ total_microseconds (now_reference clk) →
  extract_features clk data = Ok f →
  month f = dt_month (now_default clk)
  ∧ day_of_month f = dt_day (now_default clk)
  ∧ day_of_week f = weekday (now_default clk)
  ∧ days_until_departure f = 0.
Proof.
  intros Hnone Hdate Htime _ Hclock Hext.
  apply extract_features_Ok in Hext as (_ & Hm & Hw & Hd & Hdays & _).
  unfold dict_get in *. rewrite Hnone in *.
  cbn [parse_departure_date] in *. rewrite (strptime_strftime _ Hdate) in *.
  split_and!; [done | done | done |].
  rewrite Hdays. pose proof (midnight_le _ Htime).
  unfold timedelta_days, microseconds_per_day.
  set (a := total_microseconds (midnight (now_default clk))) in *.
  set (b := total_microseconds (now_reference clk)) in *.
  Z.div_mod_to_equations. lia.
Qed.

Lemma extract_features_default_date_witness :
  let data := delete "departureDate" example_request in
  let f := mk_features (JNum 600) 7 0 1 0 0 1 50 0 in
  extract_features example_clock data = Ok f
  ∧ month f = 7 ∧ day_of_month f = 1 ∧ days_until_departure f = 0.
Proof.
  intros data f.
  assert (Hf : extract_features example_clock data = Ok f) by reflexivity.
  assert (Hdate : valid_date (now_default example_clock))
    by (vm_compute; intuition discriminate).
  assert (Htime : valid_time (now_default example_clock))
    by (vm_compute; intuition discriminate).
  assert (Hyear : 1000 ≤ dt_year (now_default example_clock))
    by (vm_compute; discriminate).
  assert (Hclock : total_microseconds (now_default example_clock)
                   ≤ total_microseconds (now_reference example_clock))
    by (vm_compute; discriminate).
  destruct (extract_features_default_date example_clock data f eq_refl
              Hdate Htime Hyear Hclock Hf) as (Hm & Hd & _ & Hdays).
  split_and!; [exact Hf | exact Hm | exact Hd | exact Hdays].
Defined.

(** ** Rounding is monotone *)

Lemma round_half_even_mono (x y : Q) :
  (x <= y)%Q → round_half_even x ≤ round_half_even y.
Proof.
  intros Hxy. pose proof (Qfloor_resp_le _ _ Hxy) as Hfl.
  unfold round_half_even.
  destruct (Z.eq_dec (Qfloor x) (Qfloor y)) as [Heq|Hne].
  - rewrite Heq.
    destruct (Qcompare_spec (x - inject_Z (Qfloor y)) (1 # 2)),
             (Qcompare_spec (y - inject_Z (Qfloor y)) (1 # 2));
      try (exfalso; lra); destruct (Z.even (Qfloor y)); lia.
  - repeat case_match; lia.
Qed.

Lemma round2_mono (x y : Q) : (x <= y)%Q → (round2 x <= round2 y)%Q.
Proof.
  intros Hxy. unfold round2.
  assert (H : round_half_even (x * 100) ≤ round_half_even (y * 100))
    by (apply round_half_even_mono; lra).
  rewrite Zle_Qle in H.
  apply Qmult_le_compat_r; [exact H | done].
Qed.

(** A lower bound given in hundredths survives the rounding. *)
Lemma round2_ge_cents (k : Z) (x : Q) :
  (inject_Z k / 100 <= x)%Q → (inject_Z k / 100 <= round2 x)%Q.
Proof.
  intros Hk. unfold round2.
  assert (H : k ≤ round_half_even (x * 100)).
  { apply round_half_even_ge.
    apply (Qmult_le_compat_r _ _ 100) in Hk; [|done].
    rewrite (Qmult_comm (inject_Z k / 100) 100), Qmult_div_r in Hk; done. }
  rewrite Zle_Qle in H.
  apply Qmult_le_compat_r; [exact H | done].
Qed.

Lemma floor_and_round_mono (x y : Q) :
  (x <= y)%Q → (floor_and_round x <= floor_and_round y)%Q.
Proof.
  intros Hxy. unfold floor_and_round. apply round2_mono.
  apply Q.max_le_compat_r. exact Hxy.
Qed.

Lemma floor_and_round_ge_30 (x : Q) : (30 <= floor_and_round x)%Q.
Proof.
  unfold floor_and_round.
  assert (H : (inject_Z 3000 / 100 <= round2 (Qmax x 30))%Q).
  { apply round2_ge_cents. apply Qle_trans with 30%Q; [done | apply Q.le_max_r]. }
  apply Qle_trans with (inject_Z 3000 / 100)%Q; [done | exact H].
Qed.

(** The override never raises a price. *)
Lemma domestic_override_le_raw (dom : bool) (f : features) (raw q : Q) :
  domestic_override dom f raw = Ok q → (q <= raw)%Q.
Proof.
  unfold domestic_override. destruct (dom && negb (Qle_bool raw 80)).
  - destruct (adjusted_price f); [|done]. intros [= <-].
    eapply Qle_trans; [apply Q.le_min_l | apply Q.le_min_l].
  - intros [= <-]. apply Qle_refl.
Qed.

Lemma domestic_override_not_domestic (f : features) (raw : Q) :
  domestic_override false f raw = Ok raw.
Proof. reflexivity. Qed.

(** ** Single prediction: bad requests and failures *)

Lemma falsy_dict_empty (data : gmap string json) :
  falsy_dict data = true ↔ data = ∅.
Proof.
  unfold falsy_dict. rewrite bool_decide_eq_true. apply map_size_empty_iff.
Qed.

Lemma predict_body_Ok (E : env) (clk : clock) (data : gmap string json)
    (w w' : world) (r : response) :
  predict_body E clk data w = (Ok r, w') →
  ∃ p f, r = predict_success p "USD" f 0.85%Q.
Proof.
  unfold predict_body; unfold_M.
  destruct (extract_features clk data) as [f0|]; [|done].
  destruct (ensure_model_and_predict E f0 w) as [[raw|] w1]; [|done].
  destruct (is_domestic data) as [dom|]; [|done].
  destruct (domestic_override dom f0 raw) as [q|]; [|done].
  intros [= <- <-]. by eexists _, _.
Qed.

(** What [predict] answers on a non-empty JSON object. *)
Lemma predict_nonempty (E : env) (clk : clock) (data : gmap string json) (w : world) :
  falsy_dict data = false →
  predict E clk (Some data) w =
    match predict_body E clk data w with
    | (Ok r, w') => (Ok r, w')
    | (Raise e, w') =>
        (Ok (failure 500 (str_of e)),
         mk_world (model w') (model_file w') (log w' ++ [error_prediction e]))
    end.
Proof.
  intros Hne. unfold predict. rewrite Hne. unfold_M.
  by destruct (predict_body E clk data w) as [[r|e] w'].
Qed.

(** On a JSON object the handler of any JSON value is [predict]. *)
Lemma predict_json_object (E : env) (clk : clock) (m : gmap string json) :
  predict_json E clk (JObj m) = predict E clk (Some m).
Proof.
  unfold predict_json, predict. cbn [falsy as_dict].
  by destruct (falsy_dict m).
Qed.

Lemma predict_json_non_object (E : env) (clk : clock) (v : json) (w : world) :
  falsy v = false → (∀ m, v ≠ JObj m) →
  predict_json E clk v w =
    (Ok (failure 500 (str_of AttributeError)),
     mk_world (model w) (model_file w) (log w ++ [error_prediction AttributeError])).
Proof.
  intros Hv Hobj. unfold predict_json. rewrite Hv.
  destruct v as [| | | | |m]; try reflexivity. by destruct (Hobj m).
Qed.

Lemma predict_json_400 (E : env) (clk : clock) (v : json) (w : world) (t : error_text) :
  (predict_json E clk v w).1 = Ok (failure 400 t) → falsy v = true.
Proof.
  destruct (falsy v) eqn:Hv; [done|]. intros Ht. exfalso.
  destruct v as [| | | | |m];
    try (rewrite predict_json_non_object in Ht; [done | done | by intros m]).
  rewrite predict_json_object in Ht. cbn [falsy] in Hv.
  rewrite (predict_nonempty _ _ _ _ Hv) in Ht.
  destruct (predict_body E clk m w) as [[r|e] w'] eqn:Hbody; [|done].
  apply predict_body_Ok in Hbody as (p & f & ->). done.
Qed.

(** X7. [POST /predict] answers 400 exactly when the request carries JSON
    whose value is falsy: [null], [false], zero, the empty string, the
    empty list or the empty object.  It then says "No data provided" and
    leaves the model, the model file and the log untouched (no training
    is started).  A request whose body is not JSON is answered 500, and
    so is one whose JSON value is truthy but not an object. *)
Theorem predict_bad_request_iff (E : env) (clk : clock) (b : request_body)
    (w : world) :
  ((∃ t, (predict_request E clk b w).1 = Ok (failure 400 t))
   ↔ ∃ v, b = JsonBody v ∧ falsy v = true)
  ∧ (∀ v, b = JsonBody v → falsy v = true →
     predict_request E clk b w
     = (Ok (failure 400 (message "No data provided")), w))
  ∧ (∀ e, get_json b = Raise e →
     (predict_request E clk b w).1 = Ok (failure 500 (str_of e)))
  ∧ (∀ v, b = JsonBody v → falsy v = false → (∀ m, v ≠ JObj m) →
     (predict_request E clk b w).1 = Ok (failure 500 (str_of AttributeError))).
Proof.
  assert (Hbad : ∀ v, b = JsonBody v → falsy v = true →
            predict_request E clk b w
            = (Ok (failure 400 (message "No data provided")), w)).
  { intros v -> Hv. unfold predict_request, predict_json. cbn [get_json].
    by rewrite Hv. }
  split_and!.
  - split.
    + intros [t Ht]. destruct b as [v| |];
        [|revert Ht; unfold predict_request; cbn [get_json]; unfold_M; done..].
      exists v. split; [done|]. unfold predict_request in Ht.
      cbn [get_json] in Ht. by eapply predict_json_400.
    + intros (v & Hb & Hv). rewrite (Hbad v Hb Hv). by eexists.
  - exact Hbad.
  - intros e He. unfold predict_request. by rewrite He.
  - intros v -> Hv Hobj. unfold predict_request. cbn [get_json].
    by rewrite predict_json_non_object.
Qed.

Lemma is_domestic_non_string (data : gmap string json) (key : string) (v : json) :
  key = "fromAirport" ∨ key = "toAirport" →
  data !! key = Some v → is_str v = false →
  is_domestic data = Raise AttributeError.
Proof.
  intros Hkey Hv Hstr. unfold is_domestic.
  destruct Hkey as [-> | ->].
  - unfold dict_get at 1. rewrite Hv. by destruct v.
  - destruct (py_upper (dict_get data "fromAirport" (JStr ""))) as [s|e] eqn:Hup.
    + unfold dict_get. rewrite Hv. by destruct v.
    + unfold py_upper in Hup.
      destruct (dict_get data "fromAirport" (JStr "")); congruence.
Qed.

(** X8. A single prediction whose [fromAirport] or [toAirport] is present
    but is not a string never succeeds: the answer is 500, whatever the
    model and the other fields (the domestic test calls [upper] on it). *)
Theorem predict_non_string_airport (E : env) (clk : clock)
    (data : gmap string json) (key : string) (v : json) (w : world) :
  key = "fromAirport" ∨ key = "toAirport" →
  data !! key = Some v → is_str v = false →
  ∃ e, (predict E clk (Some data) w).1 = Ok (failure 500 (str_of e)).
Proof.
  intros Hkey Hv Hstr.
  assert (Hne : falsy_dict data = false).
  { destruct (falsy_dict data) eqn:H; [|done].
    apply falsy_dict_empty in H. by rewrite H, lookup_empty in Hv. }
  rewrite (predict_nonempty _ _ _ _ Hne).
  destruct (predict_body E clk data w) as [[r|e] w'] eqn:Hbody; [|by exists e].
  exfalso. revert Hbody. unfold predict_body; unfold_M.
  destruct (extract_features clk data) as [f0|]; [|done].
  destruct (ensure_model_and_predict E f0 w) as [[raw|] w1]; [|done].
  by rewrite (is_domestic_non_string _ _ _ Hkey Hv Hstr).
Qed.

Lemma predict_non_string_airport_witness :
  (predict (example_env 100) example_clock
     (Some (<["toAirport" := JNull]> example_request)) fresh_world).1
  = Ok (failure 500 (str_of AttributeError)).
Proof.
  assert (Hv : <["toAirport" := JNull]> example_request !! "toAirport" = Some JNull)
    by (vm_compute; reflexivity).
  destruct (predict_non_string_airport (example_env 100) example_clock
              (<["toAirport" := JNull]> example_request) "toAirport" JNull
              fresh_world (or_intror eq_refl) Hv eq_refl) as [e He].
  rewrite He. vm_compute in He. by injection He as <-.
Defined.

(** X9. No single prediction is priced below 30, whatever the route and
    the model output. *)
Theorem predict_price_floor (E : env) (clk : clock) (data : gmap string json)
    (w w' : world) (p : Q) (cur : string) (f : features) (c : Q) :
  predict E clk (Some data) w = (Ok (predict_success p cur f c), w') →
  (30 <= p)%Q.
Proof.
  intros (raw & w1 & dom & q & _ & _ & _ & _ & ->)%predict_success_inv.
  apply floor_and_round_ge_30.
Qed.

Lemma predict_price_floor_witness :
  ∃ p cur f c w',
    predict (example_env 12) example_clock (Some request_lowercase) fresh_world
    = (Ok (predict_success p cur f c), w')
    ∧ (30 <= p)%Q.
Proof.
  destruct (predict (example_env 12) example_clock (Some request_lowercase)
              fresh_world) as [[[p cur f c| | | |]|] w'] eqn:Hr;
    try (vm_compute in Hr; discriminate Hr).
  exists p, cur, f, c, w'. split; [reflexivity|].
  exact (predict_price_floor _ _ _ _ _ _ _ _ _ Hr).
Defined.

Lemma predict_bad_request_iff_witness :
  predict_request (example_env 100) example_clock (JsonBody (JArr [])) fresh_world
  = (Ok (failure 400 (message "No data provided")), fresh_world)
  ∧ (predict_request (example_env 100) example_clock NotJsonBody fresh_world).1
    = Ok (failure 500 (str_of UnsupportedMediaType))
  ∧ (predict_request (example_env 100) example_clock (JsonBody (JNum 5))
       fresh_world).1
    = Ok (failure 500 (str_of AttributeError))
  ∧ ¬ (∃ t, (predict_request (example_env 100) example_clock
               (JsonBody (JObj example_request)) fresh_world).1
            = Ok (failure 400 t)).
Proof.
  destruct (predict_bad_request_iff (example_env 100) example_clock
              (JsonBody (JArr [])) fresh_world) as (_ & Hbad & _).
  destruct (predict_bad_request_iff (example_env 100) example_clock
              NotJsonBody fresh_world) as (_ & _ & Hraise & _).
  destruct (predict_bad_request_iff (example_env 100) example_clock
              (JsonBody (JNum 5)) fresh_world) as (_ & _ & _ & Hnum).
  destruct (predict_bad_request_iff (example_env 100) example_clock
              (JsonBody (JObj example_request)) fresh_world) as ([Hiff _] & _).
  split; [|split; [|split]].
  - exact (Hbad (JArr []) eq_refl eq_refl).
  - exact (Hraise UnsupportedMediaType eq_refl).
  - apply (Hnum (JNum 5) eq_refl eq_refl). intros m H. discriminate H.
  - intros (v & Hv & Hfalsy)%Hiff.
    assert (Hfalse : falsy (JObj example_request) = false)
      by (vm_compute; reflexivity).
    congruence.
Defined.

(** ** Single against batch *)

Lemma predict_batch_single (E : env) (clks : nat → clock)
    (batch data : gmap string json) (w w1 : world) (f : features) (raw : Q) :
  batch !! "flights" = Some (JArr [JObj data]) →
  extract_features (clks 0%nat) data = Ok f →
  ensure_model_and_predict E f w = (Ok raw, w1) →
  predict_batch E clks (Some batch) w =
    (Ok (batch_success
           [mk_prediction (dict_get_none data "fromAirport")
              (dict_get_none data "toAirport")
              (dict_get_none data "departureDate") (floor_and_round raw)]), w1).
Proof.
  intros Hflights Hf Hraw. unfold predict_batch.
  assert (Hne : falsy_dict batch = false).
  { destruct (falsy_dict batch) eqn:H; [|done].
    apply falsy_dict_empty in H. by rewrite H, lookup_empty in Hflights. }
  rewrite Hne, Hflights. unfold_M. cbn [py_iter predict_batch_loop].
  unfold predict_batch_item; unfold_M. cbn [as_dict].
  by rewrite Hf, Hraw.
Qed.

(** X10. Priced alone through the batch endpoint, a flight that single
    prediction prices successfully is priced successfully as well, and
    never cheaper: the single price is at most the batch price, and the
    two are equal when the domestic test of the override fails. *)
Theorem predict_le_predict_batch (E : env) (clks : nat → clock)
    (batch data : gmap string json) (w w' : world)
    (p : Q) (cur : string) (f : features) (c : Q) :
  batch !! "flights" = Some (JArr [JObj data]) →
  predict E (clks 0%nat) (Some data) w = (Ok (predict_success p cur f c), w') →
  ∃ pr w1,
    predict_batch E clks (Some batch) w = (Ok (batch_success [pr]), w1)
    ∧ (p <= p_predictedPrice pr)%Q
    ∧ (is_domestic data = Ok false → (p == p_predictedPrice pr)%Q).
Proof.
  intros Hflights (raw & w1 & dom & q & Hf & Hraw & Hdom & Hq & ->)%predict_success_inv.
  eexists _, w1. split; [by eapply predict_batch_single|].
  cbn [p_predictedPrice]. split.
  - apply floor_and_round_mono. by eapply domestic_override_le_raw.
  - intros Hfalse. rewrite Hfalse in Hdom. injection Hdom as <-.
    rewrite domestic_override_not_domestic in Hq. by injection Hq as <-.
Qed.

Lemma predict_le_predict_batch_witness :
  let batch : gmap string json := {[ "flights" := JArr [JObj example_request] ]} in
  ∃ p pr w1,
    (predict (example_env 200) example_clock (Some example_request) fresh_world).1
    = Ok (predict_success p "USD" (mk_features (JNum 600) 7 0 15 13 0 1 50 0) 0.85%Q)
    ∧ predict_batch (example_env 200) (λ _, example_clock) (Some batch) fresh_world
      = (Ok (batch_success [pr]), w1)
    ∧ (p <= p_predictedPrice pr)%Q.
Proof.
  intros batch.
  destruct (predict (example_env 200) example_clock (Some example_request)
              fresh_world) as [[[p cur f c| | | |]|] w'] eqn:Hr;
    try (vm_compute in Hr; discriminate Hr).
  assert (Hflights : batch !! "flights" = Some (JArr [JObj example_request]))
    by (vm_compute; reflexivity).
  destruct (predict_le_predict_batch (example_env 200) (λ _, example_clock)
              batch example_request fresh_world w' p cur f c Hflights Hr)
    as (pr & w1 & Hb & Hle & _).
  exists p, pr, w1. split; [|by split].
  vm_compute in Hr. injection Hr as <- <- <- <- _. reflexivity.
Defined.

(** ** Training, loading, and the model in memory *)

Lemma train_model_Ok_consistent (E : env) (w w1 : world) :
  train_model E w = (Ok tt, w1) →
  ∃ m, model w1 = Some m ∧ model_file w1 = Some (Pickled m).
Proof.
  assert (Hnew : ∀ w0, train_new_model E w0 = (Ok tt, w1) →
            ∃ m, model w1 = Some m ∧ model_file w1 = Some (Pickled m)).
  { intros w0. unfold train_new_model; unfold_M.
    destruct (forest_fit E _ _) as [p|]; [|done].
    destruct (dump_ok E); [|done].
    intros [= <-]. by eexists. }
  unfold train_model. destruct (model_file w) as [[m|]|] eqn:Hfile.
  - unfold_M. intros [= <-]. by exists m.
  - unfold_M. apply Hnew.
  - apply Hnew.
Qed.

(** X11. After [train_model] has returned normally, the model in memory is
    the model stored in the file, and every later [train_model] or
    [retrain], in whatever surroundings, only reloads it: the model and
    the file stay as they are. *)
Theorem train_model_then_reload (E E' : env) (w w1 : world) :
  train_model E w = (Ok tt, w1) →
  ∃ m,
    model w1 = Some m ∧ model_file w1 = Some (Pickled m)
    ∧ train_model E' w1 =
        (Ok tt, mk_world (Some m) (Some (Pickled m)) (log w1 ++ [info_model_loaded]))
    ∧ retrain E' w1 =
        (Ok (retrain_success "Model retrained successfully"),
         mk_world (Some m) (Some (Pickled m)) (log w1 ++ [info_model_loaded])).
Proof.
  intros (m & Hm & Hfile)%train_model_Ok_consistent. exists m.
  split_and!; [done | done | |].
  - unfold train_model. rewrite Hfile. unfold_M. by rewrite Hfile.
  - unfold retrain, train_model; unfold_M. rewrite Hfile. unfold_M. by rewrite ?Hfile.
Qed.

Lemma train_model_then_reload_witness :
  let w1 := (train_model (example_env 100) fresh_world).2 in
  model (retrain failing_fit_env w1).2 = model w1
  ∧ model_file (retrain failing_fit_env w1).2 = model_file w1.
Proof.
  intros w1.
  assert (H : train_model (example_env 100) fresh_world = (Ok tt, w1)) by reflexivity.
  destruct (train_model_then_reload (example_env 100) failing_fit_env
              fresh_world w1 H) as (m & Hm & Hfile & _ & Hre).
  rewrite Hre, Hm, Hfile. by split.
Defined.

Lemma ensure_model_loaded (E : env) (f : features) (w : world) (m : estimator) :
  model w = Some m →
  ensure_model_and_predict E f w = (estimator_predict m f, w).
Proof.
  intros Hm. unfold ensure_model_and_predict; unfold_M.
  rewrite Hm. unfold_M. by rewrite Hm.
Qed.

(** With a model in memory the loop of the batch handler leaves the world
    alone. *)
Lemma predict_batch_loop_loaded (E : env) (clks : nat → clock) (m : estimator)
    (w : world) (flights : list json) :
  model w = Some m →
  ∀ i, (predict_batch_loop E clks i flights w).2 = w.
Proof.
  intros Hm. induction flights as [|flight rest IH]; intros i; [done|].
  cbn [predict_batch_loop]. unfold predict_batch_item; unfold_M.
  destruct (as_dict flight) as [fd|]; [|done].
  destruct (extract_features (clks i) fd) as [f|]; [|done].
  rewrite (ensure_model_loaded _ _ _ _ Hm).
  destruct (estimator_predict m f) as [raw|]; [|done].
  specialize (IH (S i)).
  destruct (predict_batch_loop E clks (S i) rest w) as [[ps|] w2]; by cbn in *.
Qed.

(** X12. Once a model is in memory, no prediction request, single or batch,
    replaces it or touches the model file: training is never started
    again, whatever the request and its outcome. *)
Theorem predictions_keep_loaded_model (E : env) (clk : clock)
    (clks : nat → clock) (body : option (gmap string json))
    (w : world) (m : estimator) :
  model w = Some m →
  (model (predict E clk body w).2 = Some m
   ∧ model_file (predict E clk body w).2 = model_file w)
  ∧ (model (predict_batch E clks body w).2 = Some m
     ∧ model_file (predict_batch E clks body w).2 = model_file w).
Proof.
  intros Hm. split.
  - unfold predict. destruct body as [data|]; [|done].
    destruct (falsy_dict data); [done|].
    unfold predict_body; unfold_M.
    destruct (extract_features clk data) as [f|]; [|done].
    rewrite (ensure_model_loaded _ _ _ _ Hm).
    destruct (estimator_predict m f) as [raw|]; [|done].
    destruct (is_domestic data) as [dom|]; [|done].
    by destruct (domestic_override dom f raw) as [q|].
  - unfold predict_batch. destruct body as [data|]; [|done].
    destruct (if falsy_dict data then None else data !! "flights") as [v|]; [|done].
    unfold_M. destruct (py_iter v) as [flights|]; [|done].
    pose proof (predict_batch_loop_loaded E clks m w flights Hm 0%nat) as Hloop.
    destruct (predict_batch_loop E clks 0 flights w) as [[ps|e] w2];
      cbn in Hloop; by subst w2.
Qed.

Lemma predictions_keep_loaded_model_witness :
  let w := (train_model (example_env 100) fresh_world).2 in
  model (predict (example_env 7) example_clock (Some example_request) w).2 = model w
  ∧ model (predict_batch (example_env 7) (λ _, example_clock) (Some example_batch) w).2
    = model w.
Proof.
  intros w.
  destruct (predictions_keep_loaded_model (example_env 7) example_clock
              (λ _, example_clock) (Some example_request) w
              (mk_estimator 100 10 (Some (constant_forest 100))) eq_refl)
    as [[H1 _] _].
  destruct (predictions_keep_loaded_model (example_env 7) example_clock
              (λ _, example_clock) (Some example_batch) w
              (mk_estimator 100 10 (Some (constant_forest 100))) eq_refl)
    as [_ [H2 _]].
  split; [exact H1 | exact H2].
Defined.



(** ** Model information *)

Lemma zip_fst_snd {A B : Type} (l : list A) (k : list B) :
  length l = length k → (zip l k).*1 = l ∧ (zip l k).*2 = k.
Proof.
  revert k. induction l as [|a l IH]; intros [|b k] Hlen; try done.
  injection Hlen as Hlen. destruct (IH k Hlen) as [H1 H2].
  cbn [zip fmap list_fmap fst snd]. split; by f_equal.
Qed.

(** X14. [GET /model/info] answers 404 exactly when no model is in
    memory; with a fitted forest it returns, without changing anything,
    the forest's importances paired in order with the nine feature names
    (given the forest has nine importances, one per training column). *)
Theorem model_info_report (w : world) :
  ((∃ t, (model_info w).1 = Ok (failure 404 t)) ↔ model w = None)
  ∧ (∀ m p, model w = Some m → fitted m = Some p →
       length (feature_importances_ p) = 9%nat →
       ∃ fi, model_info w =
               (Ok (info_success "RandomForestRegressor" (n_estimators m)
                      (max_depth m) fi), w)
             ∧ fi.*1 = model_info_names
             ∧ fi.*2 = feature_importances_ p).
Proof.
  unfold model_info; unfold_M. split.
  - destruct (model w) as [m|]; [|split; [done | by eexists]].
    split; [|done]. intros [t Ht]. by destruct (fitted m).
  - intros m p -> -> Hlen. eexists. split; [reflexivity|].
    by apply zip_fst_snd.
Qed.

Lemma model_info_report_witness :
  let p := mk_predictor (λ _, Ok 100%Q) [0.3; 0.05; 0.02; 0.03; 0.1; 0.05; 0.1; 0.3; 0.05]%Q in
  let m := mk_estimator 100 10 (Some p) in
  let w := mk_world (Some m) (Some (Pickled m)) [] in
  ∃ fi, (model_info w).1 = Ok (info_success "RandomForestRegressor" 100 10 fi)
        ∧ fi !! 7%nat = Some ("distance", 0.3%Q)
        ∧ ¬ (∃ t, (model_info w).1 = Ok (failure 404 t)).
Proof.
  intros p m w.
  destruct (model_info_report w) as [Hiff Hrep].
  destruct (Hrep m p eq_refl eq_refl eq_refl) as (fi & Hfi & _ & _).
  exists fi. rewrite Hfi. split; [reflexivity|]. split.
  - vm_compute in Hfi. injection Hfi as <-. reflexivity.
  - intros [t Ht]. cbn [fst] in Ht. discriminate Ht.
Defined.

(** ** Batch prediction: bad requests and failures *)

Lemma predict_batch_loop_non_object (E : env) (clks : nat → clock)
    (flights : list json) (v : json) :
  v ∈ flights → (∀ m, v ≠ JObj m) →
  ∀ i w, ∃ e, (predict_batch_loop E clks i flights w).1 = Raise e.
Proof.
  intros Hin Hv. induction flights as [|flight rest IH]; intros i w.
  - by apply elem_of_nil in Hin.
  - cbn [predict_batch_loop]. unfold_M.
    apply elem_of_cons in Hin as [<-|Hin].
    + unfold predict_batch_item; unfold_M.
      destruct v as [| | | | |m]; try by eexists. by destruct (Hv m).
    + destruct (predict_batch_item E (clks i) flight w) as [[p|e] w1];
        [|by exists e].
      destruct (IH Hin (S i) w1) as [e He].
      destruct (predict_batch_loop E clks (S i) rest w1) as [[ps|e'] w2];
        [done | by exists e'].
Qed.

(** X15. The batch endpoint is all or nothing: if the list of flights
    holds one element that is not a JSON object, wherever it stands and
    whatever the other flights are, the answer is 500 and no prediction is
    returned. *)
Theorem predict_batch_non_object (E : env) (clks : nat → clock)
    (data : gmap string json) (flights : list json) (v : json) (w : world) :
  data !! "flights" = Some (JArr flights) →
  v ∈ flights → (∀ m, v ≠ JObj m) →
  ∃ e, (predict_batch E clks (Some data) w).1 = Ok (failure 500 (str_of e)).
Proof.
  intros Hflights Hin Hv. unfold predict_batch.
  assert (Hne : falsy_dict data = false).
  { destruct (falsy_dict data) eqn:H; [|done].
    apply falsy_dict_empty in H. by rewrite H, lookup_empty in Hflights. }
  rewrite Hne, Hflights. unfold_M. cbn [py_iter].
  destruct (predict_batch_loop_non_object E clks flights v Hin Hv 0%nat w) as [e He].
  destruct (predict_batch_loop E clks 0 flights w) as [[ps|e'] w1]; [done|].
  by exists e'.
Qed.

Lemma predict_batch_non_object_witness :
  let data : gmap string json :=
    {[ "flights" := JArr [JObj example_request; JStr "IST-SAW"] ]} in
  (predict_batch (example_env 100) (λ _, example_clock) (Some data) fresh_world).1
  = Ok (failure 500 (str_of AttributeError)).
Proof.
  intros data.
  assert (Hflights : data !! "flights"
                     = Some (JArr [JObj example_request; JStr "IST-SAW"]))
    by (vm_compute; reflexivity).
  assert (Hin : JStr "IST-SAW" ∈ [JObj example_request; JStr "IST-SAW"])
    by (apply elem_of_cons; right; apply elem_of_cons; by left).
  destruct (predict_batch_non_object (example_env 100) (λ _, example_clock)
              data _ (JStr "IST-SAW") fresh_world Hflights Hin
              (λ m H, eq_ind (JStr "IST-SAW")
                        (λ j, match j with JStr _ => True | _ => False end)
                        I _ H)) as [e He].
  rewrite He. vm_compute in He. by injection He as <-.
Defined.

Lemma predict_batch_json_object (E : env) (clks : nat → clock)
    (m : gmap string json) :
  predict_batch_json E clks (JObj m) = predict_batch E clks (Some m).
Proof.
  unfold predict_batch_json, predict_batch. cbn [falsy].
  by destruct (falsy_dict m).
Qed.

Lemma predict_batch_object_400 (E : env) (clks : nat → clock)
    (data : gmap string json) (w : world) (t : error_text) :
  (predict_batch E clks (Some data) w).1 = Ok (failure 400 t) →
  data !! "flights" = None.
Proof.
  intros Ht. destruct (data !! "flights") as [v|] eqn:Hv; [|done]. exfalso.
  unfold predict_batch in Ht. rewrite Hv in Ht.
  assert (Hne : falsy_dict data = false).
  { destruct (falsy_dict data) eqn:H; [|done].
    apply falsy_dict_empty in H. by rewrite H, lookup_empty in Hv. }
  rewrite Hne in Ht. revert Ht. unfold_M.
  destruct (py_iter v) as [flights|]; [|done].
  by destruct (predict_batch_loop E clks 0 flights w) as [[ps|e] w1].
Qed.

(** X16. [POST /predict/batch] answers 400 exactly when the request
    carries JSON whose value is falsy, or an object without [flights]
    key, or a list or a string that does not contain ['flights']; it then
    says "No flights data provided" and changes nothing.  A request whose
    body is not JSON is answered 500, and so is any other JSON value that
    is not an object: a non-zero number and [true] (the membership test
    raises), a list or a string that contains ['flights'] (the subscript
    raises). *)
Theorem predict_batch_bad_request_iff (E : env) (clks : nat → clock)
    (b : request_body) (w : world) :
  let missing :=
    ∃ v, b = JsonBody v ∧ (falsy v = true ∨ contains_flights v = Ok false) in
  ((∃ t, (predict_batch_request E clks b w).1 = Ok (failure 400 t)) ↔ missing)
  ∧ (missing →
     predict_batch_request E clks b w =
       (Ok (failure 400 (message "No flights data provided")), w))
  ∧ (∀ e, get_json b = Raise e →
     (predict_batch_request E clks b w).1 = Ok (failure 500 (str_of e)))
  ∧ (∀ v, b = JsonBody v → falsy v = false → (∀ m, v ≠ JObj m) →
     contains_flights v ≠ Ok false →
     (predict_batch_request E clks b w).1 = Ok (failure 500 (str_of TypeError))).
Proof.
  intros missing.
  assert (Hbad : missing → predict_batch_request E clks b w =
            (Ok (failure 400 (message "No flights data provided")), w)).
  { intros (v & -> & Hv). unfold predict_batch_request, predict_batch_json.
    cbn [get_json]. destruct (falsy v) eqn:Hfalsy; [done|].
    destruct Hv as [Hv|Hv]; [done|].
    destruct v as [| | | | |m]; try (rewrite Hv; reflexivity).
    unfold predict_batch. cbn [falsy] in Hfalsy. rewrite Hfalsy.
    cbn [contains_flights] in Hv. by destruct (m !! "flights"). }
  split_and!.
  - split; [|intros Hm; rewrite (Hbad Hm); by eexists].
    intros [t Ht]. destruct b as [v| |];
      [|revert Ht; unfold predict_batch_request; cbn [get_json]; unfold_M; done..].
    exists v. split; [done|].
    unfold predict_batch_request in Ht. cbn [get_json] in Ht.
    destruct (falsy v) eqn:Hfalsy; [by left|]. right.
    destruct v as [| | | | |m].
    + done.
    + unfold predict_batch_json in Ht. rewrite Hfalsy in Ht. done.
    + unfold predict_batch_json in Ht. rewrite Hfalsy in Ht. done.
    + unfold predict_batch_json in Ht. rewrite Hfalsy in Ht.
      cbn [contains_flights] in *. by destruct (is_substring _ _).
    + unfold predict_batch_json in Ht. rewrite Hfalsy in Ht.
      cbn [contains_flights] in *. by destruct (existsb _ _).
    + rewrite predict_batch_json_object in Ht.
      apply predict_batch_object_400 in Ht. cbn [contains_flights].
      by rewrite Ht.
  - exact Hbad.
  - intros e He. unfold predict_batch_request. by rewrite He.
  - intros v -> Hv Hobj Hcf. unfold predict_batch_request, predict_batch_json.
    cbn [get_json]. rewrite Hv.
    destruct v as [| | | | |m]; try reflexivity.
    + cbn [contains_flights] in *. by destruct (is_substring _ _).
    + cbn [contains_flights] in *. by destruct (existsb _ _).
    + by destruct (Hobj m).
Qed.

Lemma predict_batch_bad_request_iff_witness :
  predict_batch_request (example_env 100) (λ _, example_clock)
    (JsonBody (JObj example_request)) fresh_world
  = (Ok (failure 400 (message "No flights data provided")), fresh_world)
  ∧ predict_batch_request (example_env 100) (λ _, example_clock)
      (JsonBody (JArr [JNum 1])) fresh_world
    = (Ok (failure 400 (message "No flights data provided")), fresh_world)
  ∧ (predict_batch_request (example_env 100) (λ _, example_clock)
       (JsonBody (JNum 5)) fresh_world).1
    = Ok (failure 500 (str_of TypeError))
  ∧ (predict_batch_request (example_env 100) (λ _, example_clock)
       MalformedBody fresh_world).1
    = Ok (failure 500 (str_of BadRequest)).
Proof.
  destruct (predict_batch_bad_request_iff (example_env 100) (λ _, example_clock)
              (JsonBody (JObj example_request)) fresh_world) as (_ & Hobj & _).
  destruct (predict_batch_bad_request_iff (example_env 100) (λ _, example_clock)
              (JsonBody (JArr [JNum 1])) fresh_world) as (_ & Harr & _).
  destruct (predict_batch_bad_request_iff (example_env 100) (λ _, example_clock)
              (JsonBody (JNum 5)) fresh_world) as (_ & _ & _ & Hnum).
  destruct (predict_batch_bad_request_iff (example_env 100) (λ _, example_clock)
              MalformedBody fresh_world) as (_ & _ & Hraise & _).
  split; [|split; [|split]].
  - apply Hobj. eexists. split; [reflexivity|]. right. vm_compute. reflexivity.
  - apply Harr. eexists. split; [reflexivity|]. right. reflexivity.
  - apply (Hnum (JNum 5) eq_refl eq_refl); [intros m H | intros H]; discriminate H.
  - exact (Hraise BadRequest eq_refl).
Defined.

(** ** Domestic routes *)

Lemma py_in_domestic (a : string) :
  a ∈ domestic_set → py_in (JStr a) extract_features_domestic_airports = true.
Proof. intros Ha. unfold py_in. by apply bool_decide_eq_true. Qed.

Lemma get_distance_domestic (a b : string) (d : Z) :
  a ∈ domestic_set → b ∈ domestic_set →
  get_distance (JStr a) (JStr b) = Ok d → 50 ≤ d ≤ 1200.
Proof.
  unfold domestic_set. intros Ha Hb.
  repeat (apply elem_of_cons in Ha as [->|Ha];
    [ repeat (apply elem_of_cons in Hb as [->|Hb];
        [ intros H; vm_compute in H; injection H as <-; lia | ]);
      by apply elem_of_nil in Hb | ]).
  by apply elem_of_nil in Ha.
Qed.

(** X17. For a domestic route the extracted distance lies between 50 and
    1200 km and the route is flagged domestic ([is_international] = 0). *)
Theorem extract_features_domestic (clk : clock) (data : gmap string json)
    (f : features) :
  domestic_route data →
  extract_features clk data = Ok f →
  50 ≤ distance f ≤ 1200 ∧ is_international f = 0.
Proof.
  intros (a & b & Ha & Hb & Hina & Hinb) Hext. split.
  - apply extract_features_Ok in Hext as (_ & _ & _ & _ & _ & _ & _ & Hdist).
    unfold dict_get in Hdist. rewrite Ha, Hb in Hdist.
    exact (get_distance_domestic a b _ Hina Hinb Hdist).
  - unfold extract_features, dict_get in Hext. rewrite Ha, Hb in Hext.
    destruct (get_distance (JStr a) (JStr b)); [|done].
    injection Hext as <-. cbn [is_international].
    pose proof (py_in_domestic a Hina) as Hpa.
    pose proof (py_in_domestic b Hinb) as Hpb.
    unfold py_in in Hpa, Hpb. by rewrite Hpa, Hpb.
Qed.

Lemma extract_features_domestic_witness :
  let data := <["toAirport" := JStr "VAN"]> example_request in
  let f := mk_features (JNum 600) 7 0 15 13 0 1 1200 0 in
  extract_features example_clock data = Ok f
  ∧ 50 ≤ distance f ≤ 1200 ∧ is_international f = 0.
Proof.
  intros data f.
  assert (Hf : extract_features example_clock data = Ok f) by reflexivity.
  assert (Hroute : domestic_route data).
  { exists "IST", "VAN".
    split; [vm_compute; reflexivity|]. split; [vm_compute; reflexivity|].
    split; unfold domestic_set; rewrite !elem_of_cons;
      repeat first [left; reflexivity | right]. }
  split; [exact Hf|].
  exact (extract_features_domestic example_clock data f Hroute Hf).
Defined.

Lemma adjusted_price_formula_ge (distance : Z) (duration : Q)
    (peak weekend : bool) (days : Z) :
  50 ≤ distance → (0 <= duration)%Q →
  (40.25 <= adjusted_price_formula distance duration peak weekend days)%Q.
Proof.
  intros Hdist Hdur. unfold adjusted_price_formula.
  rewrite Zle_Qle in Hdist. change (inject_Z 50) with 50%Q in Hdist.
  assert (Hdays : (0 <= (if days <? 7 then inject_Z ((7 - days) * 2) else 0))%Q).
  { destruct (days <? 7) eqn:H7; [|done].
    apply Z.ltb_lt in H7. rewrite <- (Zle_Qle 0). lia. }
  destruct peak, weekend; lra.
Qed.

(** X18. When the override fires on a domestic route with a non-negative
    duration, the returned price lies in [40.25, 85]: the adjusted price
    is at least 40 + 50*0.005, so its floor of 35 never takes effect. *)
Theorem predict_domestic_override_range (E : env) (clk : clock)
    (data : gmap string json) (w w1 : world) (f : features) (raw duration : Q) :
  domestic_route data →
  extract_features clk data = Ok f →
  duration_minutes f = JNum duration →
  (0 <= duration)%Q →
  ensure_model_and_predict E f w = (Ok raw, w1) →
  (80 < raw)%Q →
  ∃ adjusted p w',
    adjusted_price f = Ok adjusted
    ∧ (Qmax adjusted 35 == adjusted)%Q
    ∧ predict E clk (Some data) w = (Ok (predict_success p "USD" f 0.85%Q), w')
    ∧ (40.25 <= p)%Q ∧ (p <= 85)%Q.
Proof.
  intros Hroute Hf Hdur Hdur0 Hraw Hgt.
  destruct (adjusted_price_numeric f duration Hdur) as (adj & Hadj & Hadj_eq).
  assert (Hdist : 50 ≤ distance f).
  { destruct Hroute as (a & b & Ha & Hb & Hina & Hinb).
    pose proof Hf as (_ & _ & _ & _ & _ & _ & _ & Hd)%extract_features_Ok.
    unfold dict_get in Hd. rewrite Ha, Hb in Hd.
    apply (get_distance_domestic a b _ Hina Hinb Hd). }
  assert (Hadj_ge : (40.25 <= adj)%Q).
  { rewrite Hadj_eq. by apply adjusted_price_formula_ge. }
  assert (Hq : domestic_override true f raw
               = Ok (Qmin (Qmin raw (Qmax adj 35)) 85)).
  { unfold domestic_override; cbn [andb].
    destruct (Qle_bool raw 80) eqn:Hle.
    - apply Qle_bool_iff in Hle. lra.
    - cbn [negb]. by rewrite Hadj. }
  pose proof (predict_success_intro E clk data w w1 f raw _ true
                (domestic_route_not_falsy _ Hroute) Hf Hraw
                (domestic_route_is_domestic _ Hroute) Hq) as Hpred.
  assert (Hmax : (Qmax adj 35 == adj)%Q) by (apply Q.max_l; lra).
  eexists adj, _, _. split; [exact Hadj|]. split; [exact Hmax|].
  split; [exact Hpred|].
  assert (Hfinal : (40.25 <= Qmin (Qmin raw (Qmax adj 35)) 85)%Q).
  { repeat apply Q.min_glb; [lra | rewrite Hmax; exact Hadj_ge | done]. }
  split.
  - unfold floor_and_round.
    apply Qle_trans with (inject_Z 4025 / 100)%Q; [done|].
    apply round2_ge_cents.
    apply Qle_trans with (Qmin (Qmin raw (Qmax adj 35)) 85);
      [apply Qle_trans with 40.25%Q; [done | exact Hfinal] | apply Q.le_max_l].
  - apply floor_and_round_bounds. apply Q.le_min_r.
Qed.

Lemma predict_domestic_override_range_witness :
  let f := mk_features (JNum 600) 7 0 15 13 0 1 50 0 in
  ∃ p w',
    predict (example_env 200) example_clock (Some example_request) fresh_world
    = (Ok (predict_success p "USD" f 0.85%Q), w')
    ∧ (40.25 <= p)%Q ∧ (p <= 85)%Q.
Proof.
  intros f.
  assert (Hf : extract_features example_clock example_request = Ok f)
    by reflexivity.
  assert (Hens : ensure_model_and_predict (example_env 200) f fresh_world
                 = (Ok 200%Q,
                    (ensure_model_and_predict (example_env 200) f fresh_world).2))
    by reflexivity.
  assert (Hgt : (80 < 200)%Q) by reflexivity.
  assert (Hdur : (0 <= 600)%Q) by discriminate.
  destruct (predict_domestic_override_range (example_env 200) example_clock
              example_request fresh_world _ f 200%Q 600%Q
              example_request_domestic Hf eq_refl Hdur Hens Hgt)
    as (adj & p & w' & _ & _ & Hp & Hlo & Hhi).
  exists p, w'. split; [exact Hp|]. split; [exact Hlo | exact Hhi].
Defined.

(** ** Synthetic training data *)

(** X20. Every training row is well formed: the frame has nine columns of
    one length, which is also the number of labels; the three flags are 0
    or 1; a row is international exactly when its distance exceeds 1500;
    and its label is at least 35, and at least 100 when international. *)
Theorem training_rows_invariants (draws : list sample) (s : sample) :
  (length (training_frame draws) = 9%nat
   ∧ Forall (λ col, length col.2 = length draws) (training_frame draws)
   ∧ length (training_labels draws) = length draws)
  ∧ (sample_is_weekend s = 0 ∨ sample_is_weekend s = 1)
  ∧ (sample_is_peak_season s = 0 ∨ sample_is_peak_season s = 1)
  ∧ (sample_is_international s = 1 ∧ 1500 < s_distance s
     ∨ sample_is_international s = 0 ∧ s_distance s ≤ 1500)
  ∧ (35 <= sample_price s)%Q
  ∧ (sample_is_international s = 1 → (100 <= sample_price s)%Q).
Proof.
  split_and!.
  - reflexivity.
  - unfold training_frame. repeat constructor; cbn [snd]; apply length_fmap.
  - apply length_fmap.
  - unfold sample_is_weekend. case_match; auto.
  - unfold sample_is_peak_season. case_match; auto.
  - unfold sample_is_international. destruct (1500 <? s_distance s) eqn:H;
      [left | right]; lia.
  - unfold sample_price. destruct (sample_is_international s =? 1).
    + eapply Qle_trans; [|apply Q.le_max_r]. done.
    + apply Q.le_max_r.
  - intros H. unfold sample_price. rewrite H. cbn [Z.eqb Pos.eqb].
    apply Q.le_max_r.
Qed.

Lemma training_rows_invariants_witness :
  let s := mk_sample 120 7 6 14 3 2500 (-10)%Q in
  sample_is_international s = 1 ∧ (sample_price s == 100)%Q
  ∧ (100 <= sample_price s)%Q.
Proof.
  intros s.
  destruct (training_rows_invariants [s] s) as (_ & _ & _ & _ & _ & H).
  split; [reflexivity|]. split; [reflexivity | apply H; reflexivity].
Defined.

(** X21. For an unknown route that is not domestic, extraction produces
    [is_international] = 1 together with the default distance 500, a
    combination no training row has: rows flagged international always
    have a distance above 1500. *)
Theorem extract_features_unknown_route (clk : clock) (data : gmap string json)
    (a b : string) (f : features) :
  data !! "fromAirport" = Some (JStr a) →
  data !! "toAirport" = Some (JStr b) →
  AIRPORT_DISTANCES !! (a, b) = None →
  AIRPORT_DISTANCES !! (b, a) = None →
  a ∉ domestic_set ∨ b ∉ domestic_set →
  extract_features clk data = Ok f →
  is_international f = 1 ∧ distance f = 500
  ∧ ∀ s : sample, sample_is_international s = 1 → distance f < s_distance s.
Proof.
  intros Ha Hb Hab Hba Hnot Hext.
  unfold extract_features, dict_get in Hext. rewrite Ha, Hb in Hext.
  rewrite get_distance_str, Hab, Hba in Hext. cbn [default] in Hext.
  apply Ok_inj in Hext. subst f. cbn [is_international distance].
  split_and!.
  - unfold py_in. destruct Hnot as [Hn|Hn].
    + by rewrite (bool_decide_false _ Hn).
    + rewrite (bool_decide_false _ Hn). by rewrite andb_false_r.
  - done.
  - intros s. unfold sample_is_international. case_match; [lia | done].
Qed.

Lemma extract_features_unknown_route_witness :
  let data := <["fromAirport" := JStr "JFK"]> (<["toAirport" := JStr "LAX"]> example_request) in
  ∃ f, extract_features example_clock data = Ok f
       ∧ is_international f = 1 ∧ distance f = 500.
Proof.
  intros data.
  assert (Hf : extract_features example_clock data
               = Ok (mk_features (JNum 600) 7 0 15 13 0 1 500 1)) by reflexivity.
  assert (Ha : data !! "fromAirport" = Some (JStr "JFK")) by (vm_compute; reflexivity).
  assert (Hb : data !! "toAirport" = Some (JStr "LAX")) by (vm_compute; reflexivity).
  assert (Hab : AIRPORT_DISTANCES !! ("JFK", "LAX") = None) by (vm_compute; reflexivity).
  assert (Hba : AIRPORT_DISTANCES !! ("LAX", "JFK") = None) by (vm_compute; reflexivity).
  assert (Hnot : "JFK" ∉ domestic_set ∨ "LAX" ∉ domestic_set).
  { left. unfold domestic_set. rewrite !elem_of_cons, elem_of_nil.
    intros H. repeat (destruct H as [H|H]; [discriminate H|]). exact H. }
  destruct (extract_features_unknown_route example_clock data "JFK" "LAX" _
              Ha Hb Hab Hba Hnot Hf) as (Hi & Hd & _).
  eexists. split; [exact Hf|]. split; [exact Hi | exact Hd].
Defined.

(** ** The first prediction of an unloaded service *)

(** X22. On a service with no model in memory and no model file, the
    first single prediction with extractable features trains and saves
    the model (fitting and writing succeed): afterwards the new model is
    in memory and in the file, whether or not the prediction itself
    succeeds. *)
Theorem predict_trains_when_unloaded (E : env) (clk : clock)
    (data : gmap string json) (w : world) (f : features) (p : predictor) :
  model w = None →
  model_file w = None →
  forest_fit E (training_frame (seeded_draws E)) (training_labels (seeded_draws E))
    = Ok p →
  dump_ok E = true →
  falsy_dict data = false →
  extract_features clk data = Ok f →
  let m := mk_estimator 100 10 (Some p) in
  let w' := (predict E clk (Some data) w).2 in
  model w' = Some m ∧ model_file w' = Some (Pickled m).
Proof.
  intros Hm Hfile Hfit Hdump Hne Hf m w'. subst w'.
  rewrite (predict_nonempty _ _ _ _ Hne). unfold predict_body; unfold_M.
  rewrite Hf. unfold ensure_model_and_predict; unfold_M. rewrite Hm.
  unfold train_model. rewrite Hfile.
  rewrite (train_new_model_fit_ok _ _ _ Hfit Hdump). unfold_M.
  destruct (estimator_predict _ f) as [raw|]; [|done].
  destruct (is_domestic data) as [dom|]; [|done].
  by destruct (domestic_override dom f raw) as [q|].
Qed.

Lemma predict_trains_when_unloaded_witness :
  let w' := (predict (example_env 100) example_clock (Some example_request)
               fresh_world).2 in
  model w' = Some (mk_estimator 100 10 (Some (constant_forest 100)))
  ∧ model_file w' = Some (Pickled (mk_estimator 100 10 (Some (constant_forest 100)))).
Proof.
  exact (predict_trains_when_unloaded (example_env 100) example_clock
           example_request fresh_world (mk_features (JNum 600) 7 0 15 13 0 1 50 0)
           (constant_forest 100) eq_refl eq_refl eq_refl eq_refl eq_refl eq_refl).
Defined.

(** * Departure dates, days to departure, and routes on the defaults *)

(** ** Whole days until departure *)

Lemma total_microseconds_time_of_day (d : datetime) :
  total_microseconds d = toordinal d * microseconds_per_day + time_of_day d.
Proof. unfold total_microseconds, time_of_day. lia. Qed.

Lemma time_of_day_range (d : datetime) :
  valid_time d → 0 ≤ time_of_day d < microseconds_per_day.
Proof.
  intros (Hh & Hmi & Hs & Hus). unfold time_of_day, microseconds_per_day. lia.
Qed.

(** Floor division by a day: the calendar difference, less one when the
    clock time of the first instant is earlier than that of the second. *)
Lemma timedelta_days_calendar (a b : datetime) :
  valid_time a → valid_time b →
  timedelta_days a b =
    calendar_days_between a b
    - (if time_of_day b <=? time_of_day a then 0 else 1).
Proof.
  intros Ha%time_of_day_range Hb%time_of_day_range.
  unfold timedelta_days, calendar_days_between.
  rewrite !total_microseconds_time_of_day.
  assert (HD : 0 < microseconds_per_day) by (unfold microseconds_per_day; lia).
  set (D := microseconds_per_day) in *.
  set (ta := time_of_day a) in *. set (tb := time_of_day b) in *.
  set (oa := toordinal a). set (ob := toordinal b).
  destruct (tb <=? ta) eqn:Hle.
  - apply Z.leb_le in Hle. symmetry.
    apply (Z.div_unique_pos _ _ _ (ta - tb)); lia.
  - apply Z.leb_gt in Hle. symmetry.
    apply (Z.div_unique_pos _ _ _ (D + ta - tb)); lia.
Qed.

Lemma strptime_ymd_time_of_day (s : string) (d : datetime) :
  strptime_ymd s = Some d → valid_time d ∧ time_of_day d = 0.
Proof.
  intros [_ <-]%strptime_ymd_valid. unfold valid_time, time_of_day, midnight.
  cbn [dt_hour dt_minute dt_second dt_microsecond]. lia.
Qed.

Lemma parse_departure_date_valid_time (clk : clock) (v : json) :
  valid_time (now_fallback clk) → valid_time (parse_departure_date clk v).
Proof.
  intros Hnow. unfold parse_departure_date. destruct v; try done.
  destruct (strptime_ymd s) as [d|] eqn:Hd; [|done].
  by apply strptime_ymd_time_of_day in Hd as [? _].
Qed.

(** C6, counterexample. At noon on 2024-07-01 a departure on 2024-07-15
    is fourteen calendar days away, and [days_until_departure] is 13. *)
Lemma days_until_departure_calendar_counterexample :
  ∃ f d,
    extract_features example_clock example_request = Ok f
    ∧ strptime_ymd "2024-07-15" = Some d
    ∧ calendar_days_between d (now_reference example_clock) = 14
    ∧ days_until_departure f = 13
    ∧ days_until_departure f
      ≠ Z.max 0 (calendar_days_between d (now_reference example_clock)).
Proof.
  exists (mk_features (JNum 600) 7 0 15 13 0 1 50 0),
    (mk_datetime 2024 7 15 0 0 0 0).
  split; [reflexivity|]. split; [reflexivity|]. split; [reflexivity|].
  split; [reflexivity|]. vm_compute. discriminate.
Qed.

(** C6, amended. [days_until_departure] counts the whole 24-hour periods
    from the current instant to the departure date, floored at 0, and is
    never negative.  In calendar days that is the difference of the two
    dates, less one when the current time of day is later than that of
    the departure date: for a date read from the request, which stands
    for 00:00 of its day, whenever the request arrives after midnight. *)
Theorem days_until_departure_whole_days (clk : clock) (data : gmap string json)
    (f : features) :
  valid_time (now_fallback clk) →
  valid_time (now_reference clk) →
  extract_features clk data = Ok f →
  let departure_date :=
    dict_get data "departureDate" (JStr (strftime_ymd (now_default clk))) in
  let date_obj := parse_departure_date clk departure_date in
  let now := now_reference clk in
  days_until_departure f =
    Z.max 0 (calendar_days_between date_obj now
             - (if time_of_day now <=? time_of_day date_obj then 0 else 1))
  ∧ (∀ s d, departure_date = JStr s → strptime_ymd s = Some d →
       days_until_departure f =
         Z.max 0 (calendar_days_between d now
                  - (if time_of_day now =? 0 then 0 else 1)))
  ∧ 0 ≤ days_until_departure f.
Proof.
  intros Hfb Hnow Hext departure_date date_obj now.
  apply extract_features_Ok in Hext as (_ & _ & _ & _ & Hdays & _).
  change (days_until_departure f = Z.max 0 (timedelta_days date_obj now)) in Hdays.
  assert (Hobj : valid_time date_obj)
    by (by apply parse_departure_date_valid_time).
  rewrite (timedelta_days_calendar date_obj now Hobj Hnow) in Hdays.
  split; [exact Hdays|]. split; [|lia].
  intros s d Hs Hd. rewrite Hdays. unfold date_obj. rewrite Hs.
  cbn [parse_departure_date]. rewrite Hd.
  apply strptime_ymd_time_of_day in Hd as [_ ->].
  pose proof (time_of_day_range _ Hnow) as Hrange. fold now in Hrange.
  destruct (time_of_day now <=? 0) eqn:Hle, (time_of_day now =? 0) eqn:Heq;
    try reflexivity; lia.
Qed.

Lemma days_until_departure_whole_days_witness :
  let f := mk_features (JNum 600) 7 0 15 13 0 1 50 0 in
  extract_features example_clock example_request = Ok f
  ∧ calendar_days_between (mk_datetime 2024 7 15 0 0 0 0)
      (now_reference example_clock) = 14
  ∧ days_until_departure f = Z.max 0 (14 - 1)
  ∧ 0 ≤ days_until_departure f.
Proof.
  intros f.
  assert (Hfb : valid_time (now_fallback example_clock))
    by (vm_compute; intuition discriminate).
  assert (Hnow : valid_time (now_reference example_clock))
    by (vm_compute; intuition discriminate).
  assert (Hf : extract_features example_clock example_request = Ok f)
    by reflexivity.
  destruct (days_until_departure_whole_days example_clock example_request f
              Hfb Hnow Hf) as (_ & Hparsed & Hge).
  split; [exact Hf|]. split; [reflexivity|]. split; [|exact Hge].
  exact (Hparsed "2024-07-15" (mk_datetime 2024 7 15 0 0 0 0) eq_refl eq_refl).
Defined.

(** ** Reading the departure date *)

(** C7. Extraction reads [departureDate] in the format YYYY-MM-DD: a
    string that [strptime] accepts gives the month, day of month, day of
    week and days to departure of the date it denotes, and the text
    YYYY-MM-DD of every real date is accepted as that date.  Any other
    value (text in another format, a date that does not exist, a value
    that is not a string) raises nothing: the current date takes its
    place, and extraction returns all nine fields, the date fields being
    those of the current date.  Only an unhashable airport field makes
    extraction raise, whatever the date is. *)
Theorem extract_features_date_parsing (clk : clock) (data : gmap string json)
    (v : json) :
  data !! "departureDate" = Some v →
  hashable (dict_get data "fromAirport" (JStr "IST")) = true →
  hashable (dict_get data "toAirport" (JStr "SAW")) = true →
  ∃ f dist,
    extract_features clk data = Ok f
    ∧ get_distance (dict_get data "fromAirport" (JStr "IST"))
        (dict_get data "toAirport" (JStr "SAW")) = Ok dist
    ∧ (∀ s d, v = JStr s → strptime_ymd s = Some d →
         month f = dt_month d ∧ day_of_month f = dt_day d
         ∧ day_of_week f = weekday d
         ∧ days_until_departure f
           = Z.max 0 (timedelta_days d (now_reference clk)))
    ∧ (∀ d, valid_date d → v = JStr (strftime_ymd d) →
         month f = dt_month d ∧ day_of_month f = dt_day d
         ∧ day_of_week f = weekday d
         ∧ days_until_departure f
           = Z.max 0 (timedelta_days (midnight d) (now_reference clk)))
    ∧ (parse_fails v →
         let now := now_fallback clk in
         f = mk_features (dict_get data "durationMinutes" (JNum 90))
               (dt_month now) (weekday now) (dt_day now)
               (Z.max 0 (timedelta_days now (now_reference clk)))
               (if 5 <=? weekday now then 1 else 0)
               (if bool_decide (dt_month now ∈ [6; 7; 8; 12]) then 1 else 0)
               dist
               (if py_in (dict_get data "fromAirport" (JStr "IST"))
                     extract_features_domestic_airports
                   && py_in (dict_get data "toAirport" (JStr "SAW"))
                        extract_features_domestic_airports
                then 0 else 1)).
Proof.
  intros Hv Ha Hb.
  destruct (get_distance_hashable _ _ Ha Hb) as [dist Hdist].
  assert (Hparsed : ∀ (f : features) s d,
            extract_features clk data = Ok f →
            v = JStr s → strptime_ymd s = Some d →
            month f = dt_month d ∧ day_of_month f = dt_day d
            ∧ day_of_week f = weekday d
            ∧ days_until_departure f
              = Z.max 0 (timedelta_days d (now_reference clk))).
  { intros f s d Hf -> Hd.
    apply extract_features_Ok in Hf as (_ & Hm & Hw & Hdm & Hdays & _).
    unfold dict_get in Hm, Hw, Hdm, Hdays. rewrite Hv in Hm, Hw, Hdm, Hdays.
    cbn [parse_departure_date] in Hm, Hw, Hdm, Hdays.
    rewrite Hd in Hm, Hw, Hdm, Hdays. done. }
  assert (Hext : extract_features clk data
                 = Ok (let date_obj := parse_departure_date clk v in
                       mk_features (dict_get data "durationMinutes" (JNum 90))
                         (dt_month date_obj) (weekday date_obj) (dt_day date_obj)
                         (Z.max 0 (timedelta_days date_obj (now_reference clk)))
                         (if 5 <=? weekday date_obj then 1 else 0)
                         (if bool_decide (dt_month date_obj ∈ [6; 7; 8; 12])
                          then 1 else 0)
                         dist
                         (if py_in (dict_get data "fromAirport" (JStr "IST"))
                               extract_features_domestic_airports
                             && py_in (dict_get data "toAirport" (JStr "SAW"))
                                  extract_features_domestic_airports
                          then 0 else 1))).
  { assert (Hdd : dict_get data "departureDate"
                    (JStr (strftime_ymd (now_default clk))) = v)
      by (unfold dict_get; by rewrite Hv).
    unfold extract_features. rewrite Hdist, Hdd. cbv zeta.
    destruct (timedelta_days (parse_departure_date clk v) (now_reference clk) <? 0)
      eqn:Hneg; do 2 f_equal; lia. }
  eexists _, dist. split; [exact Hext|]. split; [exact Hdist|].
  split; [|split].
  - intros s d. by apply Hparsed.
  - intros d Hd Hs.
    exact (Hparsed _ (strftime_ymd d) (midnight d) Hext Hs
             (strptime_strftime d Hd)).
  - intros Hfail now.
    assert (Hnow : parse_departure_date clk v = now_fallback clk).
    { unfold parse_departure_date. destruct v; try done.
      cbn [parse_fails] in Hfail. by rewrite Hfail. }
    by rewrite Hnow.
Qed.

Lemma extract_features_date_parsing_witness :
  ∃ f f',
    extract_features example_clock example_request = Ok f
    ∧ (month f = 7 ∧ day_of_month f = 15 ∧ day_of_week f = 0
       ∧ days_until_departure f = 13)
    ∧ extract_features example_clock
        (<["departureDate" := JStr "15/07/2024"]> example_request) = Ok f'
    ∧ month f' = 7 ∧ day_of_month f' = 1 ∧ days_until_departure f' = 0.
Proof.
  assert (Hv : example_request !! "departureDate" = Some (JStr "2024-07-15"))
    by (vm_compute; reflexivity).
  assert (Hv' : <["departureDate" := JStr "15/07/2024"]> example_request
                !! "departureDate" = Some (JStr "15/07/2024"))
    by (vm_compute; reflexivity).
  assert (Ha : hashable (dict_get example_request "fromAirport" (JStr "IST")) = true)
    by (vm_compute; reflexivity).
  assert (Hb : hashable (dict_get example_request "toAirport" (JStr "SAW")) = true)
    by (vm_compute; reflexivity).
  assert (Ha' : hashable (dict_get (<["departureDate" := JStr "15/07/2024"]>
                                      example_request)
                            "fromAirport" (JStr "IST")) = true)
    by (vm_compute; reflexivity).
  assert (Hb' : hashable (dict_get (<["departureDate" := JStr "15/07/2024"]>
                                      example_request)
                            "toAirport" (JStr "SAW")) = true)
    by (vm_compute; reflexivity).
  destruct (extract_features_date_parsing example_clock example_request
              (JStr "2024-07-15") Hv Ha Hb)
    as (f & dist & Hf & _ & Hparsed & _).
  destruct (extract_features_date_parsing example_clock
              (<["departureDate" := JStr "15/07/2024"]> example_request)
              (JStr "15/07/2024") Hv' Ha' Hb')
    as (f' & dist' & Hf' & _ & _ & _ & Hfail).
  exists f, f'. split; [exact Hf|]. split.
  - exact (Hparsed "2024-07-15" (mk_datetime 2024 7 15 0 0 0 0) eq_refl eq_refl).
  - split; [exact Hf'|].
    assert (Hnone : parse_fails (JStr "15/07/2024")) by (vm_compute; reflexivity).
    rewrite (Hfail Hnone). cbn [month day_of_month days_until_departure].
    split; [reflexivity|]. split; reflexivity.
Defined.

(** ** Routes on the default airports *)

(** A request that names no airport is the route IST to SAW for
    extraction. *)
Lemma default_route_features (clk : clock) (data : gmap string json)
    (f : features) :
  data !! "fromAirport" = None → data !! "toAirport" = None →
  extract_features clk data = Ok f →
  is_international f = 0 ∧ distance f = 50.
Proof.
  intros Ha Hb. unfold extract_features, dict_get. rewrite Ha, Hb.
  assert (Hd : get_distance (JStr "IST") (JStr "SAW") = Ok 50)
    by (vm_compute; reflexivity).
  rewrite Hd. intros <-%Ok_inj. cbn [is_international distance].
  split; [vm_compute|]; reflexivity.
Qed.

Lemma is_international_0 (clk : clock) (data : gmap string json) (f : features) :
  extract_features clk data = Ok f → is_international f = 0 →
  ∃ a b, dict_get data "fromAirport" (JStr "IST") = JStr a
         ∧ dict_get data "toAirport" (JStr "SAW") = JStr b.
Proof.
  unfold extract_features.
  destruct (get_distance _ _) as [d|]; [|done].
  intros <-%Ok_inj. cbn [is_international].
  destruct (dict_get data "fromAirport" (JStr "IST")) as [| | |a| |];
    cbn [py_in andb]; try done.
  destruct (dict_get data "toAirport" (JStr "SAW")) as [| | |b| |];
    cbn [py_in]; rewrite ?andb_false_r; try done.
  intros _. by exists a, b.
Qed.

(** The override's test fails as soon as one airport field is left out,
    also where extraction, with its own defaults, finds a domestic
    route. *)
Lemma default_route_is_domestic (clk : clock) (data : gmap string json)
    (f : features) :
  data !! "fromAirport" = None ∨ data !! "toAirport" = None →
  extract_features clk data = Ok f → is_international f = 0 →
  is_domestic data = Ok false.
Proof.
  intros Hmissing Hf Hintl.
  destruct (is_international_0 clk data f Hf Hintl) as (a & b & Ha & Hb).
  assert (Hempty : bool_decide ("" ∈ predict_domestic_airports) = false)
    by (vm_compute; reflexivity).
  unfold is_domestic. unfold dict_get in *.
  destruct Hmissing as [Hnone|Hnone]; rewrite Hnone in *; cbn [py_upper].
  - change (upper "") with "". rewrite Hempty.
    destruct (data !! "toAirport") as [v|]; [|reflexivity].
    rewrite Hb. reflexivity.
  - destruct (data !! "fromAirport") as [v|].
    + rewrite Ha. cbn [py_upper]. change (upper "") with "".
      by rewrite Hempty, andb_false_r.
    + cbn [py_upper]. change (upper "") with "". by rewrite Hempty.
Qed.

Lemma floor_and_round_nearest (raw : Q) :
  (30 <= raw)%Q → nearest_hundredth (floor_and_round raw) raw.
Proof.
  intros Hraw. unfold floor_and_round.
  destruct (round2_nearest (Qmax raw 30)) as (Hk & Hlo & Hhi).
  pose proof (Q.le_max_l raw 30) as Hle.
  assert (Hge : (Qmax raw 30 <= raw)%Q)
    by (apply Q.max_lub; [apply Qle_refl | exact Hraw]).
  split; [exact Hk|].
  set (m := Qmax raw 30) in *. set (p := round2 m) in *. split; lra.
Qed.

(** What [predict] answers where its domestic test fails. *)
Lemma predict_not_domestic (E : env) (clk : clock) (data : gmap string json)
    (w w1 : world) (f : features) (raw : Q) :
  falsy_dict data = false →
  extract_features clk data = Ok f →
  ensure_model_and_predict E f w = (Ok raw, w1) →
  is_domestic data = Ok false →
  ∃ w', predict E clk (Some data) w
        = (Ok (predict_success (floor_and_round raw) "USD" f 0.85%Q), w').
Proof.
  intros Hne Hf Hraw Hdom. eexists.
  apply (predict_success_intro E clk data w w1 f raw raw false Hne Hf Hraw Hdom).
  apply domestic_override_not_domestic.
Qed.

(** C3. A request that leaves out an airport field is priced for the
    default airport: without both fields it is the route IST to SAW, and
    extraction reports a domestic route ([is_international] = 0).  The
    override of [predict] tests the raw fields with the empty string as
    default, so for such a domestic route it does not run: a raw
    prediction above 80 is returned as it is, to the nearest hundredth,
    and not as min(raw, max(adjusted, 35)) capped at 85, from which it is
    more than a hundredth away. *)
Theorem predict_default_route_skips_override (E : env) (clk : clock)
    (data : gmap string json) (w w1 : world) (f : features)
    (raw duration : Q) :
  data !! "fromAirport" = None ∨ data !! "toAirport" = None →
  falsy_dict data = false →
  extract_features clk data = Ok f →
  is_international f = 0 →
  duration_minutes f = JNum duration →
  ensure_model_and_predict E f w = (Ok raw, w1) →
  (80 < raw)%Q →
  let adjusted :=
    adjusted_price_formula (distance f) duration
      (bool_decide (is_peak_season f = 1)) (bool_decide (is_weekend f = 1))
      (days_until_departure f) in
  let final := Qmin (Qmin raw (Qmax adjusted 35)) 85 in
  is_domestic data = Ok false
  ∧ ∃ p w',
      predict E clk (Some data) w = (Ok (predict_success p "USD" f 0.85%Q), w')
      ∧ nearest_hundredth p raw
      ∧ ((final + 0.01 < raw)%Q → ¬ nearest_hundredth p final).
Proof.
  intros Hmissing Hne Hf Hintl Hdur Hraw Hgt adjusted final.
  pose proof (default_route_is_domestic clk data f Hmissing Hf Hintl) as Hdom.
  destruct (predict_not_domestic E clk data w w1 f raw Hne Hf Hraw Hdom)
    as [w' Hpred].
  assert (Hnear : nearest_hundredth (floor_and_round raw) raw)
    by (apply floor_and_round_nearest; lra).
  split; [exact Hdom|].
  exists (floor_and_round raw), w'. split; [exact Hpred|]. split; [exact Hnear|].
  intros Hfar (_ & _ & Hhi). destruct Hnear as (_ & Hlo & _).
  set (p := floor_and_round raw) in *. lra.
Qed.

Lemma predict_default_route_skips_override_witness :
  ∃ p w' f,
    predict (example_env 200) example_clock (Some request_without_airports)
      fresh_world = (Ok (predict_success p "USD" f 0.85%Q), w')
    ∧ is_international f = 0 ∧ distance f = 50
    ∧ nearest_hundredth p 200
    ∧ ¬ nearest_hundredth p 66.25.
Proof.
  pose (f := mk_features (JNum 60) 7 0 15 13 0 1 50 0).
  assert (Ha : request_without_airports !! "fromAirport" = None)
    by (vm_compute; reflexivity).
  assert (Hne : falsy_dict request_without_airports = false)
    by (vm_compute; reflexivity).
  assert (Hf : extract_features example_clock request_without_airports = Ok f)
    by (vm_compute; reflexivity).
  assert (Hens : ensure_model_and_predict (example_env 200) f fresh_world
                 = (Ok 200%Q,
                    (ensure_model_and_predict (example_env 200) f fresh_world).2))
    by reflexivity.
  assert (Hgt : (80 < 200)%Q) by reflexivity.
  destruct (predict_default_route_skips_override (example_env 200) example_clock
              request_without_airports fresh_world _ f 200%Q 60%Q
              (or_introl Ha) Hne Hf eq_refl eq_refl Hens Hgt)
    as (_ & p & w' & Hp & Hnear & Hfar).
  exists p, w', f. split; [exact Hp|]. split; [reflexivity|].
  split; [reflexivity|]. split; [exact Hnear|].
  intros (Hk & Hlo & Hhi). apply Hfar; [reflexivity|].
  split; [exact Hk|].
  match goal with
  | |- ((?final - _ <= _) ∧ _)%Q =>
      assert (Hfinal : (final == 66.25)%Q) by (vm_compute; reflexivity)
  end.
  rewrite Hfinal. split; [exact Hlo | exact Hhi].
Defined.

(** C4. For a request that leaves out an airport field and that
    extraction, with the default airport, reports as a domestic route
    (IST to SAW when both are left out), a raw prediction of 85.01 or
    more is returned as a price above 85: the cap of the override does
    not reach this domestic route. *)
Theorem predict_default_route_exceeds_cap (E : env) (clk : clock)
    (data : gmap string json) (w w1 : world) (f : features) (raw : Q) :
  data !! "fromAirport" = None ∨ data !! "toAirport" = None →
  falsy_dict data = false →
  extract_features clk data = Ok f →
  is_international f = 0 →
  ensure_model_and_predict E f w = (Ok raw, w1) →
  (85.01 <= raw)%Q →
  ∃ p w',
    predict E clk (Some data) w = (Ok (predict_success p "USD" f 0.85%Q), w')
    ∧ (85 < p)%Q ∧ (raw - (1 # 200) <= p)%Q.
Proof.
  intros Hmissing Hne Hf Hintl Hraw Hge.
  pose proof (default_route_is_domestic clk data f Hmissing Hf Hintl) as Hdom.
  destruct (predict_not_domestic E clk data w w1 f raw Hne Hf Hraw Hdom)
    as [w' Hpred].
  exists (floor_and_round raw), w'. split; [exact Hpred|]. split.
  - apply (Qlt_le_trans _ (inject_Z 8501 / 100)); [reflexivity|].
    unfold floor_and_round. apply round2_ge_cents.
    apply (Qle_trans _ raw); [exact Hge | apply Q.le_max_l].
  - apply floor_and_round_nearest. lra.
Qed.

Lemma predict_default_route_exceeds_cap_witness :
  let esb_only : gmap string json :=
    <["fromAirport" := JStr "ESB"]> request_without_airports in
  (∃ p w' f,
     predict (example_env 200) example_clock (Some request_without_airports)
       fresh_world = (Ok (predict_success p "USD" f 0.85%Q), w')
     ∧ is_international f = 0 ∧ distance f = 50
     ∧ (p == 200)%Q)
  ∧ (∃ p w' f,
       predict (example_env 200) example_clock (Some esb_only) fresh_world
       = (Ok (predict_success p "USD" f 0.85%Q), w')
       ∧ is_international f = 0
       ∧ (85 < p)%Q).
Proof.
  intros esb_only.
  pose (f := mk_features (JNum 60) 7 0 15 13 0 1 50 0).
  pose (f' := mk_features (JNum 60) 7 0 15 13 0 1 500 0).
  assert (Ha : request_without_airports !! "fromAirport" = None)
    by (vm_compute; reflexivity).
  assert (Hb : esb_only !! "toAirport" = None) by (vm_compute; reflexivity).
  assert (Hne : falsy_dict request_without_airports = false)
    by (vm_compute; reflexivity).
  assert (Hne' : falsy_dict esb_only = false) by (vm_compute; reflexivity).
  assert (Hf : extract_features example_clock request_without_airports = Ok f)
    by (vm_compute; reflexivity).
  assert (Hf' : extract_features example_clock esb_only = Ok f')
    by (vm_compute; reflexivity).
  assert (Hens : ensure_model_and_predict (example_env 200) f fresh_world
                 = (Ok 200%Q,
                    (ensure_model_and_predict (example_env 200) f fresh_world).2))
    by reflexivity.
  assert (Hens' : ensure_model_and_predict (example_env 200) f' fresh_world
                  = (Ok 200%Q,
                     (ensure_model_and_predict (example_env 200) f' fresh_world).2))
    by reflexivity.
  assert (Hge : (85.01 <= 200)%Q) by discriminate.
  destruct (predict_default_route_exceeds_cap (example_env 200) example_clock
              request_without_airports fresh_world _ f 200%Q
              (or_introl Ha) Hne Hf eq_refl Hens Hge)
    as (p & w' & Hp & _ & _).
  destruct (predict_default_route_exceeds_cap (example_env 200) example_clock
              esb_only fresh_world _ f' 200%Q
              (or_intror Hb) Hne' Hf' eq_refl Hens' Hge)
    as (p' & w'' & Hp' & Hgt' & _).
  split.
  - exists p, w', f. split; [exact Hp|]. split; [reflexivity|].
    split; [reflexivity|].
    vm_compute in Hp. injection Hp as <- _. reflexivity.
  - exists p', w'', f'. split; [exact Hp'|]. split; [reflexivity|]. exact Hgt'.
Defined.
